(** * SSP projections for ECG / EOG artifacts: mne/preprocessing/ssp.py

    A shallow embedding of [_compute_exg_proj] and of its two public
    wrappers [compute_proj_ecg] and [compute_proj_eog].

    The pipeline is stateful Python: it mutates the recording it is given,
    deletes keys from the rejection dict it is given, and appends to a
    list that may be the recording's own [info['projs']] list.  It is
    therefore written in a state-and-exception monad over a small object
    store.  A raised exception keeps every mutation made before it. *)

From Stdlib Require Import ZArith Floats.SpecFloat.
From stdpp Require Import gmap strings list.

Local Open Scope Z_scope.
Local Open Scope string_scope.
#[local] Set Warnings "-clear-no-such-hyp".

(** ** Python values *)

(** A Python [float] is an IEEE 754 binary64 number. *)
Abbreviation float := spec_float (only parsing).

Definition is_finite (x : float) : bool :=
  match x with
  | S754_zero _ | S754_finite _ _ _ => true
  | S754_infinity _ | S754_nan => false
  end.

(** [np.inf] *)
Definition np_inf : float := S754_infinity false.

(** Identity of a heap object (a list or a dict). *)
Abbreviation loc := positive (only parsing).

(** The exceptions that can leave the pipeline.  The first three are the
    ones the module's own statements raise; collaborators may raise
    anything. *)
Inductive exn :=
| ValueError (msg : string)
| KeyError (key : string)
| UnboundLocalError (var : string)
| OtherError (kind msg : string).

Definition Result (A : Type) : Type := exn + A.

(** ** Channel metadata *)

Inductive ch_kind := Grad | Mag | Eeg | Eog | Misc.

Record channel := { ch_label : string; kind : ch_kind }.

(** [raw.info]: the channels, the bad-channel names, and the list object
    holding the projections already attached to the recording. *)
Record Info := {
  chs : list channel;
  info_bads : list string;
  info_projs : loc
}.

(** The [meg] selector of [pick_types]: [True], [False], ['grad'], ['mag']. *)
Inductive meg_sel := MegTrue | MegFalse | MegGrad | MegMag.

(** ** The types owned by the collaborators

    Signal data, projection vectors, event arrays, the auxiliary outputs
    of the cardiac detector, epoch collections and averaged waveforms are
    produced and consumed by code outside this module; the pipeline only
    passes them along. *)
Record Domain := {
  Signal : Type;
  Proj : Type;
  Events : Type;
  Aux : Type;
  EpochsT : Type;
  Evoked : Type
}.

Section Model.
Context {D : Domain}.

(** [mne.fiff.Raw] *)
Record Raw := { _preloaded : bool; info : Info; data : Signal D }.

(** What a collaborator sees when it is handed [raw]: the object and the
    current content of its projection list. *)
Record Recording := { rec_raw : Raw; rec_projs : list (Proj D) }.

(** The collaborators.  Detectors, filters, epoching and the reducers can
    raise; channel picking and the average-reference constructor are
    queries on the channel metadata.  [exclude = None] in [pick_types]
    stands for a call that does not pass [exclude]. *)
Record Collaborators := {
  pick_types :
    Info → meg_sel → bool → bool → option (list string) → list nat;
  make_eeg_average_ref_proj : Info → Proj D;
  find_ecg_events :
    Recording → option string → Z → Result (Events D * Aux D * Aux D);
  find_eog_events : Recording → Z → Result (Events D);
  high_pass_filter :
    Raw → list nat → option float → Z → Z → Result (Signal D);
  low_pass_filter :
    Raw → list nat → option float → Z → Z → Result (Signal D);
  band_pass_filter :
    Raw → list nat → option float → option float → Z → Z → Result (Signal D);
  Epochs :
    Recording → Events D → option Z → float → float → option float →
    list nat → gmap string float → bool → Result (EpochsT D);
  epochs_average : EpochsT D → Result (Evoked D);
  compute_proj_evoked : Evoked D → Z → Z → Z → Result (list (Proj D));
  compute_proj_epochs : EpochsT D → Z → Z → Z → Result (list (Proj D))
}.

(** The calls that reach the signal-processing collaborators, with their
    arguments, in the order they are made: the detectors, the filters,
    the epoching, the averaging and the reducers.  The two queries on the
    channel metadata, [pick_types] and [make_eeg_average_ref_proj], are
    not recorded. *)
Inductive Call :=
| call_find_ecg_events (r : Recording) (ch_name : option string) (event_id : Z)
| call_find_eog_events (r : Recording) (event_id : Z)
| call_high_pass_filter (picks : list nat) (freq : option float)
    (filter_length n_jobs : Z)
| call_low_pass_filter (picks : list nat) (freq : option float)
    (filter_length n_jobs : Z)
| call_band_pass_filter (picks : list nat) (l_freq h_freq : option float)
    (filter_length n_jobs : Z)
| call_Epochs (r : Recording) (events : Events D) (tmin tmax : float)
    (picks : list nat) (reject : gmap string float)
| call_average (epochs : EpochsT D)
| call_compute_proj_evoked (evoked : Evoked D) (n_grad n_mag n_eeg : Z)
| call_compute_proj_epochs (epochs : EpochsT D) (n_grad n_mag n_eeg : Z).

Definition is_filter_call (c : Call) : bool :=
  match c with
  | call_high_pass_filter _ _ _ _ | call_low_pass_filter _ _ _ _
  | call_band_pass_filter _ _ _ _ _ => true
  | _ => false
  end.

Definition is_detector_call (c : Call) : bool :=
  match c with
  | call_find_ecg_events _ _ _ | call_find_eog_events _ _ => true
  | _ => false
  end.

(** ** The store

    [raw] is the recording object the caller hands to the pipeline; the
    caller sees its mutations in the store after the call.  [lists] and
    [dicts] hold the list and dict objects by identity, so that two
    names for one object see each other's updates. *)
Record World := {
  raw : Raw;
  lists : gmap loc (list (Proj D));
  dicts : gmap loc (gmap string float);
  trace : list Call
}.

Definition set_data (s : Signal D) (w : World) : World :=
  {| raw := {| _preloaded := _preloaded (raw w); info := info (raw w);
               data := s |};
     lists := lists w; dicts := dicts w; trace := trace w |}.

Definition set_lists (f : gmap loc (list (Proj D)) → gmap loc (list (Proj D)))
    (w : World) : World :=
  {| raw := raw w; lists := f (lists w); dicts := dicts w; trace := trace w |}.

Definition set_dicts
    (f : gmap loc (gmap string float) → gmap loc (gmap string float))
    (w : World) : World :=
  {| raw := raw w; lists := lists w; dicts := f (dicts w); trace := trace w |}.

Definition log (c : Call) (w : World) : World :=
  {| raw := raw w; lists := lists w; dicts := dicts w;
     trace := (trace w ++ [c])%list |}.

(** Content of a list object, of a dict object. *)
Definition list_at (w : World) (l : loc) : list (Proj D) := lists w !!! l.
Definition dict_at (w : World) (d : loc) : gmap string float := dicts w !!! d.

Definition recording (w : World) : Recording :=
  {| rec_raw := raw w; rec_projs := list_at w (info_projs (info (raw w))) |}.

(** ** The monad *)

Definition M (A : Type) : Type := World → Result A * World.

#[export] Instance M_ret : MRet M := λ A a w, (inr a, w).
#[export] Instance M_bind : MBind M := λ A B f m w,
  match m w with
  | (inr a, w') => f a w'
  | (inl e, w') => (inl e, w')
  end.

Definition raise {A} (e : exn) : M A := λ w, (inl e, w).
Definition get : M World := λ w, (inr w, w).
Definition modify (f : World → World) : M unit := λ w, (inr tt, f w).
Definition lift {A} (r : Result A) : M A := λ w, (r, w).

(** [if c: body] *)
Definition when (c : bool) (body : M unit) : M unit :=
  if c then body else mret tt.

(** An expression statement: the value is built and dropped. *)
Definition discard {A} (a : A) : M unit := mret tt.

(** ** Primitive statements *)

(** [[]]: a new list object. *)
Definition new_list : M loc := λ w,
  let l := fresh (dom (lists w)) in
  (inr l, set_lists <[l := []]> w).

(** [l.append(x)] *)
Definition list_append (l : loc) (x : Proj D) : M unit :=
  modify (λ w, set_lists <[l := (list_at w l ++ [x])%list]> w).

(** [l.extend(xs)] *)
Definition list_extend (l : loc) (xs : list (Proj D)) : M unit :=
  modify (λ w, set_lists <[l := (list_at w l ++ xs)%list]> w).

(** [del d[k]]: raises [KeyError] when [k] is not a key of [d]. *)
Definition del_item (d : loc) (k : string) : M unit := λ w,
  match dict_at w d !! k with
  | Some _ => (inr tt, set_dicts <[d := delete k (dict_at w d)]> w)
  | None => (inl (KeyError k), w)
  end.

(** Reading a local variable that no executed statement has bound. *)
Definition read_local {A} (var : string) (v : option A) : M A :=
  match v with
  | Some a => mret a
  | None => raise (UnboundLocalError var)
  end.

(** A call to a collaborator: recorded, then its result or exception. *)
Definition invoke {A} (c : Call) (r : Result A) : M A :=
  modify (log c);; lift r.


(** ** The pipeline *)

Context (C : Collaborators).

(** Lines 92-96: the list the projections are collected in. *)
Definition start_projs (no_proj : bool) : M loc :=
  if no_proj then new_list
  else w ← get; mret (info_projs (info (raw w))).

(** Lines 98-101. *)
Definition add_avg_ref (avg_ref : bool) (projs : loc) : M unit :=
  when avg_ref (
    w ← get;
    let eeg_proj := make_eeg_average_ref_proj C (info (raw w)) in
    list_append projs eeg_proj).

(** Lines 103-110.  The result is the local variable [events], which the
    last branch leaves unbound: its [ValueError] is built, not raised. *)
Definition detect_events (mode : string) (ch_name : option string)
    (event_id : Z) : M (option (Events D)) :=
  if String.eqb mode "ECG" then
    w ← get;
    '(events, _, _) ← invoke
        (call_find_ecg_events (recording w) ch_name event_id)
        (find_ecg_events C (recording w) ch_name event_id);
    mret (Some events)
  else if String.eqb mode "EOG" then
    w ← get;
    events ← invoke
        (call_find_eog_events (recording w) event_id)
        (find_eog_events C (recording w) event_id);
    mret (Some events)
  else
    discard (ValueError "mode must be 'ECG' or 'EOG'");;
    mret None.

(** [len(pick_types(raw.info, meg=..., eeg=..., eog=...)) == 0] *)
Definition no_channels (i : Info) (meg : meg_sel) (eeg eog : bool) : bool :=
  Nat.eqb (length (pick_types C i meg eeg eog None)) 0.

(** Lines 115-122. *)
Definition handle_rejection (reject : loc) : M unit :=
  w ← get;
  let i := info (raw w) in
  when (no_channels i MegGrad false false) (del_item reject "grad");;
  when (no_channels i MegMag false false) (del_item reject "mag");;
  when (no_channels i MegFalse true false) (del_item reject "eeg");;
  when (no_channels i MegFalse false true) (del_item reject "eog").

(** A filter method of [raw]: it overwrites the signal in place. *)
Definition run_filter (c : Call) (f : Raw → Result (Signal D)) : M unit :=
  w ← get;
  s ← invoke c (f (raw w));
  modify (set_data s).

(** Lines 126-131. *)
Definition filter_raw (picks : list nat) (l_freq h_freq : option float)
    (filter_length n_jobs : Z) : M unit :=
  when (bool_decide (l_freq = None) && negb (bool_decide (h_freq = None)))
    (run_filter (call_high_pass_filter picks h_freq filter_length n_jobs)
       (λ r, high_pass_filter C r picks h_freq filter_length n_jobs));;
  when (negb (bool_decide (l_freq = None)) && bool_decide (h_freq = None))
    (run_filter (call_low_pass_filter picks h_freq filter_length n_jobs)
       (λ r, low_pass_filter C r picks h_freq filter_length n_jobs));;
  when (negb (bool_decide (l_freq = None)) && negb (bool_decide (h_freq = None)))
    (run_filter (call_band_pass_filter picks l_freq h_freq filter_length n_jobs)
       (λ r, band_pass_filter C r picks l_freq h_freq filter_length n_jobs)).

(** Lines 133-142. *)
Definition reduce_epochs (events : option (Events D)) (tmin tmax : float)
    (picks : list nat) (reject : loc) (average : bool)
    (n_grad n_mag n_eeg : Z) : M (list (Proj D)) :=
  w ← get;
  ev ← read_local "events" events;
  let rej := dict_at w reject in
  epochs ← invoke (call_Epochs (recording w) ev tmin tmax picks rej)
             (Epochs C (recording w) ev None tmin tmax None picks rej true);
  if average then
    evoked ← invoke (call_average epochs) (epochs_average C epochs);
    invoke (call_compute_proj_evoked evoked n_grad n_mag n_eeg)
      (compute_proj_evoked C evoked n_grad n_mag n_eeg)
  else
    invoke (call_compute_proj_epochs epochs n_grad n_mag n_eeg)
      (compute_proj_epochs C epochs n_grad n_mag n_eeg).

Definition _compute_exg_proj (mode : string) (tmin tmax : float)
    (n_grad n_mag n_eeg : Z) (l_freq h_freq : option float) (average : bool)
    (filter_length n_jobs : Z) (ch_name : option string) (reject : loc)
    (bads : list string) (avg_ref no_proj : bool) (event_id : Z)
    : M (loc * Events D) :=
  w ← get;
  if negb (_preloaded (raw w)) then
    raise (ValueError
      "raw needs to be preloaded, use preload=True in constructor")
  else
    projs ← start_projs no_proj;
    add_avg_ref avg_ref projs;;
    events ← detect_events mode ch_name event_id;
    handle_rejection reject;;
    let picks := pick_types C (info (raw w)) MegTrue true true
                   (Some (info_bads (info (raw w)) ++ bads)%list) in
    filter_raw picks l_freq h_freq filter_length n_jobs;;
    ev_projs ← reduce_epochs events tmin tmax picks reject average
                 n_grad n_mag n_eeg;
    list_extend projs ev_projs;;
    ev ← read_local "events" events;
    mret (projs, ev).

(** ** The public wrappers *)

(** The keyword parameters of the wrappers.  [compute_proj_eog] has no
    [ch_name] parameter and never reads that field. *)
Record kwargs := {
  tmin : float; tmax : float;
  n_grad : Z; n_mag : Z; n_eeg : Z;
  l_freq : option float; h_freq : option float;
  average : bool; filter_length : Z; n_jobs : Z;
  ch_name : option string;
  reject : loc;
  bads : list string;
  avg_ref : bool; no_proj : bool;
  event_id : Z
}.

Definition compute_proj_ecg (k : kwargs) : M (loc * Events D) :=
  '(projs, ecg_events) ← _compute_exg_proj "ECG" (tmin k) (tmax k)
      (n_grad k) (n_mag k) (n_eeg k) (l_freq k) (h_freq k)
      (average k) (filter_length k) (n_jobs k) (ch_name k)
      (reject k) (bads k) (avg_ref k) (no_proj k) (event_id k);
  mret (projs, ecg_events).

Definition compute_proj_eog (k : kwargs) : M (loc * Events D) :=
  '(projs, eog_events) ← _compute_exg_proj "EOG" (tmin k) (tmax k)
      (n_grad k) (n_mag k) (n_eeg k) (l_freq k) (h_freq k)
      (average k) (filter_length k) (n_jobs k) None
      (reject k) (bads k) (avg_ref k) (no_proj k) (event_id k);
  mret (projs, eog_events).

End Model.

Arguments Raw : clear implicits.
Arguments Recording : clear implicits.
Arguments Collaborators : clear implicits.
Arguments Call : clear implicits.
Arguments World : clear implicits.

Arguments M : clear implicits.

(** ** Default arguments

    A default value is evaluated once, when the [def] statement runs, and
    every call that leaves the parameter out receives that one object.
    The two [reject] defaults are dict objects; they live in the store at
    the identities below from the moment the module is imported. *)

(** The literals, as the binary64 numbers they denote. *)
Definition f_m0_2 : float := S754_finite true 7205759403792794 (-55).
Definition f_0_4 : float := S754_finite false 7205759403792794 (-54).
Definition f_m0_15 : float := S754_finite true 5404319552844595 (-55).
Definition f_0_15 : float := S754_finite false 5404319552844595 (-55).
Definition f_1_0 : float := S754_finite false 4503599627370496 (-52).
Definition f_35_0 : float := S754_finite false 4925812092436480 (-47).
Definition f_2000e_13 : float := S754_finite false 7737125245533627 (-85).
Definition f_3000e_15 : float := S754_finite false 7427640235712282 (-91).
Definition f_50e_6 : float := S754_finite false 7378697629483821 (-67).
Definition f_250e_6 : float := S754_finite false 4611686018427388 (-64).
Definition f_500e_6 : float := S754_finite false 4611686018427388 (-63).

(** [dict(grad=2000e-13, mag=3000e-15, eeg=50e-6, eog=250e-6)] *)
Definition ecg_reject_dict : gmap string float :=
  <["grad" := f_2000e_13]> (<["mag" := f_3000e_15]>
    (<["eeg" := f_50e_6]> (<["eog" := f_250e_6]> ∅))).

(** [dict(grad=2000e-13, mag=3000e-15, eeg=500e-6, eog=np.inf)] *)
Definition eog_reject_dict : gmap string float :=
  <["grad" := f_2000e_13]> (<["mag" := f_3000e_15]>
    (<["eeg" := f_500e_6]> (<["eog" := np_inf]> ∅))).

Definition ecg_reject_default : loc := 1%positive.
Definition eog_reject_default : loc := 2%positive.

(** The store once the two [def] statements have run. *)
Definition import_ssp {D} (w : World D) : World D :=
  set_dicts (λ d, <[eog_reject_default := eog_reject_dict]>
                    (<[ecg_reject_default := ecg_reject_dict]> d)) w.

Definition ecg_defaults : kwargs := {|
  tmin := f_m0_2; tmax := f_0_4;
  n_grad := 2; n_mag := 2; n_eeg := 2;
  l_freq := Some f_1_0; h_freq := Some f_35_0;
  average := false; filter_length := 2048; n_jobs := 1;
  ch_name := None;
  reject := ecg_reject_default;
  bads := [];
  avg_ref := false; no_proj := true;
  event_id := 999
|}.

Definition eog_defaults : kwargs := {|
  tmin := f_m0_15; tmax := f_0_15;
  n_grad := 2; n_mag := 2; n_eeg := 2;
  l_freq := Some f_1_0; h_freq := Some f_35_0;
  average := false; filter_length := 2048; n_jobs := 1;
  ch_name := None;
  reject := eog_reject_default;
  bads := [];
  avg_ref := false; no_proj := true;
  event_id := 998
|}.

(** [compute_proj_eog(raw)] or [compute_proj_ecg(raw)]: a call of a
    wrapper that passes the recording and nothing else. *)
Definition default_call {D} (C : Collaborators D) (ocular : bool)
    : M D (loc * Events D) :=
  if ocular then compute_proj_eog C eog_defaults
  else compute_proj_ecg C ecg_defaults.

(** The dict object such a call uses as [reject]. *)
Definition default_reject (ocular : bool) : loc :=
  if ocular then eog_reject_default else ecg_reject_default.

(** A call that passes some keyword arguments and leaves the others at
    their defaults. *)
Definition with_avg_ref (b : bool) (k : kwargs) : kwargs :=
  {| tmin := tmin k; tmax := tmax k;
     n_grad := n_grad k; n_mag := n_mag k; n_eeg := n_eeg k;
     l_freq := l_freq k; h_freq := h_freq k;
     average := average k; filter_length := filter_length k;
     n_jobs := n_jobs k; ch_name := ch_name k; reject := reject k;
     bads := bads k; avg_ref := b; no_proj := no_proj k;
     event_id := event_id k |}.

Definition with_no_proj (b : bool) (k : kwargs) : kwargs :=
  {| tmin := tmin k; tmax := tmax k;
     n_grad := n_grad k; n_mag := n_mag k; n_eeg := n_eeg k;
     l_freq := l_freq k; h_freq := h_freq k;
     average := average k; filter_length := filter_length k;
     n_jobs := n_jobs k; ch_name := ch_name k; reject := reject k;
     bads := bads k; avg_ref := avg_ref k; no_proj := b;
     event_id := event_id k |}.

Definition with_bads (bs : list string) (k : kwargs) : kwargs :=
  {| tmin := tmin k; tmax := tmax k;
     n_grad := n_grad k; n_mag := n_mag k; n_eeg := n_eeg k;
     l_freq := l_freq k; h_freq := h_freq k;
     average := average k; filter_length := filter_length k;
     n_jobs := n_jobs k; ch_name := ch_name k; reject := reject k;
     bads := bs; avg_ref := avg_ref k; no_proj := no_proj k;
     event_id := event_id k |}.

Definition with_freqs (l h : option float) (k : kwargs) : kwargs :=
  {| tmin := tmin k; tmax := tmax k;
     n_grad := n_grad k; n_mag := n_mag k; n_eeg := n_eeg k;
     l_freq := l; h_freq := h;
     average := average k; filter_length := filter_length k;
     n_jobs := n_jobs k; ch_name := ch_name k; reject := reject k;
     bads := bads k; avg_ref := avg_ref k; no_proj := no_proj k;
     event_id := event_id k |}.

(** ** A test bench

    A concrete set of collaborators and recordings on which the pipeline
    can be run: signals are lists of samples, projections are named
    markers, the detectors report one event per sample (so an event list
    shows which signal the detector read), and each filter rewrites the
    samples in a way that can be told apart. *)

Definition bench : Domain := {|
  Signal := list Z;
  Proj := string;
  Events := list (Z * Z);
  Aux := unit;
  EpochsT := list (Z * Z) * list Z;
  Evoked := list Z
|}.

Definition selected (meg : meg_sel) (eeg eog : bool) (k : ch_kind) : bool :=
  match k with
  | Grad => match meg with MegTrue | MegGrad => true | _ => false end
  | Mag => match meg with MegTrue | MegMag => true | _ => false end
  | Eeg => eeg
  | Eog => eog
  | Misc => false
  end.

Fixpoint pick_from (n : nat) (cs : list channel) (meg : meg_sel)
    (eeg eog : bool) (exclude : list string) : list nat :=
  match cs with
  | [] => []
  | c :: cs' =>
      if selected meg eeg eog (kind c)
         && negb (bool_decide (ch_label c ∈ exclude))
      then n :: pick_from (S n) cs' meg eeg eog exclude
      else pick_from (S n) cs' meg eeg eog exclude
  end.

(** Modelled from the spec: [pick_types] of [mne.fiff], which is not
    under src/.  It selects the indices of the channels of the requested
    categories, leaving out the channels named in [exclude]; a call that
    does not pass [exclude] leaves nothing out. *)
Definition bench_pick_types (i : Info) (meg : meg_sel) (eeg eog : bool)
    (exclude : option (list string)) : list nat :=
  pick_from 0 (chs i) meg eeg eog (default [] exclude).

Definition bench_filter (f : Z → Z) (r : Raw bench) (freq : option float)
    : Result (list Z) :=
  match freq with
  | Some _ => inr (f <$> data r)
  | None => inl (OtherError "TypeError" "cutoff is None")
  end.

Definition bench_detect (r : Recording bench) (id : Z) : list (Z * Z) :=
  (λ x, (x, id)) <$> data (rec_raw r).

Definition bench_collaborators : Collaborators bench :=
  @Build_Collaborators bench
    bench_pick_types
    (λ _, "average-eeg-ref")
    (λ r _ id, inr (bench_detect r id, tt, tt))
    (λ r id, inr (bench_detect r id))
    (λ r _ freq _ _, bench_filter Z.pred r freq)
    (λ r _ freq _ _, bench_filter Z.succ r freq)
    (λ r _ l_freq h_freq _ _,
       match l_freq with
       | Some _ => bench_filter (Z.mul 2) r h_freq
       | None => inl (OtherError "TypeError" "cutoff is None")
       end)
    (λ r events _ _ _ _ _ _ _, inr (events, data (rec_raw r)))
    (λ e, inr (snd e))
    (λ _ _ _ _, inr ["ssp-evoked-1"; "ssp-evoked-2"])
    (λ _ _ _ _, inr ["ssp-epochs-1"; "ssp-epochs-2"]).

Definition bench_info (cs : list channel) : Info :=
  {| chs := cs; info_bads := []; info_projs := 10%positive |}.

Definition all_channels : list channel :=
  [ {| ch_label := "MEG 0113"; kind := Grad |};
    {| ch_label := "MEG 0111"; kind := Mag |};
    {| ch_label := "EEG 001"; kind := Eeg |};
    {| ch_label := "EOG 061"; kind := Eog |};
    {| ch_label := "STI 014"; kind := Misc |} ].

(** A store right after import, holding a preloaded recording with the
    given channels, three samples and two projections already attached. *)
Definition bench_raw (cs : list channel) : Raw bench :=
  @Build_Raw bench true (bench_info cs) [3; 5; 8].

Definition bench_world (cs : list channel) : World bench :=
  import_ssp
    (@Build_World bench (bench_raw cs)
       {[ 10%positive := ["old-1"; "old-2"] ]} ∅ []).

(** The same recording, opened without [preload]. *)
Definition bench_raw_lazy (cs : list channel) : Raw bench :=
  @Build_Raw bench false (bench_info cs) [3; 5; 8].

(** The channels of a recording made without gradiometers. *)
Definition no_grad_channels : list channel := tail all_channels.

(** The caller names another recording for the next call. *)
Definition set_raw {D} (r : Raw D) (w : World D) : World D :=
  {| raw := r; lists := lists w; dicts := dicts w; trace := trace w |}.

(** ** What the pruning block amounts to *)

(** The keys lines 115-122 try to delete, in the order of the four tests. *)
Definition absent_keys {D} (C : Collaborators D) (i : Info) : list string :=
  ((if no_channels C i MegGrad false false then ["grad"] else []) ++
   (if no_channels C i MegMag false false then ["mag"] else []) ++
   (if no_channels C i MegFalse true false then ["eeg"] else []) ++
   (if no_channels C i MegFalse false true then ["eog"] else []))%list.

(** The test lines 115-122 make for the category a key stands for. *)
Definition category_empty {D} (C : Collaborators D) (i : Info) (k : string)
    : bool :=
  if String.eqb k "grad" then no_channels C i MegGrad false false
  else if String.eqb k "mag" then no_channels C i MegMag false false
  else if String.eqb k "eeg" then no_channels C i MegFalse true false
  else if String.eqb k "eog" then no_channels C i MegFalse false true
  else false.

(** A dict with those keys deleted. *)
Definition prune (ks : list string) (d : gmap string float)
    : gmap string float :=
  foldl (λ m k, delete k m) d ks.

(** A run of [del d[k]] statements, one per key. *)
Fixpoint del_items {D} (d : loc) (ks : list string) : M D unit :=
  match ks with
  | [] => mret tt
  | k :: ks' => del_item d k;; del_items d ks'
  end.

(** ** Reading a trace *)

(** [new] is what a run from [w] to [w'] added to the trace. *)
Definition added {D} (w w' : World D) (new : list (Call D)) : Prop :=
  trace w' = (trace w ++ new)%list.

(** No filter call is made before a detector call. *)
Definition detection_precedes_filtering {D} (t : list (Call D)) : Prop :=
  ∀ i j c d, t !! i = Some c → t !! j = Some d →
    is_detector_call c = true → is_filter_call d = true → (i < j)%nat.

(** No detector call is made before a filter call. *)
Definition filtering_precedes_detection {D} (t : list (Call D)) : Prop :=
  ∀ i j c d, t !! i = Some c → t !! j = Some d →
    is_detector_call c = true → is_filter_call d = true → (j < i)%nat.

(** The recording a detector call or an epoching call was handed. *)
Definition call_recording {D} (c : Call D) : option (Recording D) :=
  match c with
  | call_find_ecg_events r _ _ | call_find_eog_events r _
  | call_Epochs r _ _ _ _ _ => Some r
  | _ => None
  end.

(** The rejection dict an epoching call was handed. *)
Definition call_reject {D} (c : Call D) : option (gmap string float) :=
  match c with
  | call_Epochs _ _ _ _ _ rej => Some rej
  | _ => None
  end.

(** The projections a recorded reducer call returned. *)
Definition reducer_output {D} (C : Collaborators D) (c : Call D)
    : option (list (Proj D)) :=
  match c with
  | call_compute_proj_evoked e g m n =>
      match compute_proj_evoked C e g m n with
      | inr ps => Some ps
      | inl _ => None
      end
  | call_compute_proj_epochs e g m n =>
      match compute_proj_epochs C e g m n with
      | inr ps => Some ps
      | inl _ => None
      end
  | _ => None
  end.

(** The exception a recorded detector call ended with. *)
Definition detector_exn {D} (C : Collaborators D) (c : Call D) : option exn :=
  match c with
  | call_find_ecg_events r ch_name event_id =>
      match find_ecg_events C r ch_name event_id with
      | inl e => Some e
      | inr _ => None
      end
  | call_find_eog_events r event_id =>
      match find_eog_events C r event_id with
      | inl e => Some e
      | inr _ => None
      end
  | _ => None
  end.

(** The one filter call, if any, that lines 126-131 select. *)
Definition selected_filter {D} (picks : list nat) (l_freq h_freq : option float)
    (filter_length n_jobs : Z) : list (Call D) :=
  match l_freq, h_freq with
  | None, None => []
  | None, Some _ => [call_high_pass_filter picks h_freq filter_length n_jobs]
  | Some _, None => [call_low_pass_filter picks h_freq filter_length n_jobs]
  | Some _, Some _ =>
      [call_band_pass_filter picks l_freq h_freq filter_length n_jobs]
  end.

(** ** What a run computes *)

(** The events a recorded detector call returned. *)
Definition detector_events {D} (C : Collaborators D) (c : Call D)
    : option (Events D) :=
  match c with
  | call_find_ecg_events r ch_name event_id =>
      match find_ecg_events C r ch_name event_id with
      | inr (events, _, _) => Some events
      | inl _ => None
      end
  | call_find_eog_events r event_id =>
      match find_eog_events C r event_id with
      | inr events => Some events
      | inl _ => None
      end
  | _ => None
  end.

(** Lines 136-142 as a function of the epochs. *)
Definition reduce {D} (C : Collaborators D) (average : bool)
    (epochs : EpochsT D) (n_grad n_mag n_eeg : Z) : Result (list (Proj D)) :=
  if average then
    match epochs_average C epochs with
    | inr evoked => compute_proj_evoked C evoked n_grad n_mag n_eeg
    | inl e => inl e
    end
  else compute_proj_epochs C epochs n_grad n_mag n_eeg.

(** The calls lines 136-142 make for those epochs, in order. *)
Definition reduce_calls {D} (C : Collaborators D) (average : bool)
    (epochs : EpochsT D) (n_grad n_mag n_eeg : Z) : list (Call D) :=
  if average then
    call_average epochs ::
    match epochs_average C epochs with
    | inr evoked => [call_compute_proj_evoked evoked n_grad n_mag n_eeg]
    | inl _ => []
    end
  else [call_compute_proj_epochs epochs n_grad n_mag n_eeg].

(** Lines 126-131 as a function of the recording: the signal they leave,
    or the exception of the one filter they call. *)
Definition apply_selected_filter {D} (C : Collaborators D) (r : Raw D)
    (picks : list nat) (l_freq h_freq : option float)
    (filter_length n_jobs : Z) : Result (Signal D) :=
  match l_freq, h_freq with
  | None, None => inr (data r)
  | None, Some _ => high_pass_filter C r picks h_freq filter_length n_jobs
  | Some _, None => low_pass_filter C r picks h_freq filter_length n_jobs
  | Some _, Some _ =>
      band_pass_filter C r picks l_freq h_freq filter_length n_jobs
  end.

(** ** What a call may carry *)

(** A detector call that fits the mode and the two arguments for it. *)
Definition detector_call_of {D} (mode : string) (ch_name : option string)
    (event_id : Z) (c : Call D) : Prop :=
  match c with
  | call_find_ecg_events _ ch id =>
      mode = "ECG" ∧ ch = ch_name ∧ id = event_id
  | call_find_eog_events _ id => mode = "EOG" ∧ id = event_id
  | _ => True
  end.

(** A filter or epoching call on the given picks and window. *)
Definition windowed_call_of {D} (picks : list nat) (tmin tmax : float)
    (c : Call D) : Prop :=
  match c with
  | call_high_pass_filter pk _ _ _ | call_low_pass_filter pk _ _ _
  | call_band_pass_filter pk _ _ _ _ => pk = picks
  | call_Epochs _ _ t1 t2 pk _ => t1 = tmin ∧ t2 = tmax ∧ pk = picks
  | _ => True
  end.

(** An averaging or reducer call that fits the [average] flag and the
    three budgets. *)
Definition reducer_call_of {D} (average : bool) (n_grad n_mag n_eeg : Z)
    (c : Call D) : Prop :=
  match c with
  | call_average _ => average = true
  | call_compute_proj_evoked _ g m e =>
      average = true ∧ g = n_grad ∧ m = n_mag ∧ e = n_eeg
  | call_compute_proj_epochs _ g m e =>
      average = false ∧ g = n_grad ∧ m = n_mag ∧ e = n_eeg
  | _ => True
  end.

(** A call that can only be made once [events] is bound. *)
Definition needs_events {D} (c : Call D) : bool :=
  match c with
  | call_Epochs _ _ _ _ _ _ | call_average _
  | call_compute_proj_evoked _ _ _ _ | call_compute_proj_epochs _ _ _ _ =>
      true
  | _ => false
  end.

(** What every call of one run of the pipeline satisfies. *)
Definition pipeline_call {D} (mode : string) (tmin tmax : float)
    (n_grad n_mag n_eeg : Z) (average : bool) (ch_name : option string)
    (event_id : Z) (picks : list nat) (c : Call D) : Prop :=
  detector_call_of mode ch_name event_id c ∧
  windowed_call_of picks tmin tmax c ∧
  reducer_call_of average n_grad n_mag n_eeg c ∧
  (is_detector_call c = true ∨ needs_events c = true →
   mode = "ECG" ∨ mode = "EOG").

(** ** A step of the store

    [w'] comes after [w]: the channel metadata and the preload flag are
    the same, no dict has gained or changed an entry, and the calls
    added to the trace all satisfy [P]. *)
Definition step_ok {D} (P : Call D → Prop) (w w' : World D) : Prop :=
  info (raw w') = info (raw w) ∧
  _preloaded (raw w') = _preloaded (raw w) ∧
  (∀ d, dict_at w' d ⊆ dict_at w d) ∧
  ∃ xs, added w w' xs ∧ Forall P xs.

(** Every run of [m] is such a step, and a value it returns satisfies
    [Q]. *)
Definition obeys {D A} (P : Call D → Prop) (m : M D A) (Q : A → Prop)
    : Prop :=
  ∀ w, step_ok P w (m w).2 ∧ ∀ a, (m w).1 = inr a → Q a.

(** A recording without gradiometers and a dict the caller wrote for it
    without a ['grad'] entry. *)
Definition caller_reject : loc := 3%positive.

Definition bench_world_caller_dict : World bench :=
  set_dicts
    <[caller_reject :=
        <["mag" := f_3000e_15]> (<["eeg" := f_50e_6]>
          (<["eog" := f_250e_6]> ∅))]>
    (bench_world no_grad_channels).

(** * Properties *)

Section Runs.
Context {D : Domain}.
Implicit Types (w : World D) (d p : loc) (k : string).

(** ** Running a sequence of statements *)

Lemma bind_inv {A B} (m : M D A) (f : A → M D B) w r w' :
  (m ≫= f) w = (r, w') →
  (∃ e, m w = (inl e, w') ∧ r = inl e) ∨
  (∃ a w1, m w = (inr a, w1) ∧ f a w1 = (r, w')).
Proof.
  unfold mbind, M_bind. destruct (m w) as [[e|a] w1]; intros H.
  - left. exists e. by simplify_eq.
  - right. by exists a, w1.
Qed.

Lemma bind_unit_id (m : M D unit) w : (m;; mret tt) w = m w.
Proof.
  unfold mbind, M_bind, mret, M_ret. by destruct (m w) as [[e|[]] w1].
Qed.

(** ** Store lookups after an update *)

Lemma dict_at_insert w d m : dict_at (set_dicts <[d := m]> w) d = m.
Proof. unfold dict_at. simpl. apply lookup_total_insert_eq. Qed.

Lemma list_at_insert w p l : list_at (set_lists <[p := l]> w) p = l.
Proof. unfold list_at. simpl. apply lookup_total_insert_eq. Qed.

Lemma list_at_same w w' p :
  lists w' !! p = lists w !! p → list_at w' p = list_at w p.
Proof. unfold list_at. rewrite !lookup_total_alt. by intros ->. Qed.

Lemma dict_at_same w w' d :
  dicts w' !! d = dicts w !! d → dict_at w' d = dict_at w d.
Proof. unfold dict_at. rewrite !lookup_total_alt. by intros ->. Qed.

(** ** Deleting keys *)

Lemma prune_cons k ks (m : gmap string float) :
  prune (k :: ks) m = prune ks (delete k m).
Proof. reflexivity. Qed.

Lemma prune_lookup ks (m : gmap string float) k :
  prune ks m !! k = if bool_decide (k ∈ ks) then None else m !! k.
Proof.
  revert m. induction ks as [|k' ks IH]; intros m.
  - reflexivity.
  - rewrite prune_cons, IH.
    destruct (decide (k = k')) as [->|Hne].
    + rewrite lookup_delete_eq.
      rewrite (bool_decide_eq_true_2 (k' ∈ k' :: ks)) by set_solver.
      by case_bool_decide.
    + rewrite lookup_delete_ne by done.
      case_bool_decide as H1; case_bool_decide as H2; set_solver.
Qed.

Lemma del_items_run d ks w r w' :
  del_items d ks w = (r, w') →
  raw w' = raw w ∧ lists w' = lists w ∧ trace w' = trace w ∧
  (∀ l, l ≠ d → dicts w' !! l = dicts w !! l) ∧
  match r with
  | inr _ =>
      dict_at w' d = prune ks (dict_at w d) ∧
      (ks = [] → w' = w) ∧
      (∀ k, k ∈ ks → is_Some (dict_at w d !! k))
  | inl e => ∃ k, k ∈ ks ∧ e = KeyError k
  end.
Proof.
  revert w. induction ks as [|k ks IH]; intros w H.
  - simpl in H. unfold mret, M_ret in H. simplify_eq.
    repeat split; try done. intros k Hk. set_solver.
  - simpl in H. apply bind_inv in H as [(e & H & ->)|([] & w1 & H1 & H)].
    + unfold del_item in H. destruct (dict_at w d !! k); simplify_eq.
      repeat split; try done. exists k. set_solver.
    + unfold del_item in H1.
      destruct (dict_at w d !! k) as [x|] eqn:Hk; simplify_eq.
      apply IH in H as (Hr & Hl & Ht & Hd & Hres). simpl in *.
      repeat split; try done.
      * intros l Hl'. rewrite Hd by done. by apply lookup_insert_ne.
      * destruct r as [e|u].
        -- destruct Hres as (k' & Hk' & ->). exists k'. set_solver.
        -- destruct Hres as (Hp & _ & Hall). rewrite dict_at_insert in Hp.
           repeat split; try done.
           intros k' Hk'. apply elem_of_cons in Hk' as [->|Hin]; [by eexists|].
           specialize (Hall k' Hin). rewrite dict_at_insert in Hall.
           destruct (decide (k' = k)) as [->|Hne].
           ++ rewrite lookup_delete_eq in Hall. by destruct Hall.
           ++ by rewrite lookup_delete_ne in Hall.
Qed.

Lemma del_items_ok d ks w :
  NoDup ks → (∀ k, k ∈ ks → is_Some (dict_at w d !! k)) →
  ∃ w', del_items d ks w = (inr tt, w').
Proof.
  revert w. induction ks as [|k ks IH]; intros w Hnd Hall.
  - by eexists.
  - apply NoDup_cons in Hnd as [Hnotin Hnd].
    destruct (Hall k) as [x Hx]; [set_solver|].
    simpl. unfold mbind, M_bind, del_item at 1. rewrite Hx.
    apply IH; [done|]. intros k' Hk'. rewrite dict_at_insert.
    rewrite lookup_delete_ne by set_solver. apply Hall. set_solver.
Qed.

End Runs.

Section Stages.
Context {D : Domain} (C : Collaborators D).
Implicit Types (w : World D) (d p : loc) (k : string).

(** ** The blocks of the pipeline, one by one *)

Lemma start_projs_run no_proj w :
  start_projs no_proj w =
    if no_proj
    then (inr (fresh (dom (lists w))),
          set_lists <[fresh (dom (lists w)) := []]> w)
    else (inr (info_projs (info (raw w))), w).
Proof. by destruct no_proj. Qed.

Lemma add_avg_ref_run avg_ref p w :
  add_avg_ref C avg_ref p w =
    (inr tt,
     if avg_ref
     then set_lists
            <[p := (list_at w p ++ [make_eeg_average_ref_proj C (info (raw w))])%list]> w
     else w).
Proof. by destruct avg_ref. Qed.

Lemma detect_events_run mode ch_name event_id w r w' :
  detect_events C mode ch_name event_id w = (r, w') →
  raw w' = raw w ∧ lists w' = lists w ∧ dicts w' = dicts w ∧
  ∃ det, added w w' det ∧
    Forall (λ c, is_detector_call c = true ∧
                 call_recording c = Some (recording w)) det ∧
    (length det ≤ 1)%nat ∧
    (mode = "ECG" ∨ mode = "EOG" → det ≠ []) ∧
    (∀ ev, r = inr (Some ev) → mode = "ECG" ∨ mode = "EOG") ∧
    (∀ e, r = inl e → ∃ c, det = [c] ∧ detector_exn C c = Some e).
Proof.
  unfold detect_events, added.
  destruct (String.eqb mode "ECG") eqn:Hecg;
    [|destruct (String.eqb mode "EOG") eqn:Heog].
  - apply String.eqb_eq in Hecg as ->.
    unfold invoke, mbind, M_bind, get, modify, lift. simpl.
    intros H.
    assert (w' = log (call_find_ecg_events (recording w) ch_name event_id) w
            ∧ r ≠ inr None
            ∧ ∀ e, r = inl e →
                find_ecg_events C (recording w) ch_name event_id = inl e)
      as (-> & Hr & He).
    { destruct (find_ecg_events C _ _ _) as [e|[[ev a1] a2]];
        unfold mret, M_ret in H; simplify_eq; repeat split; congruence. }
    repeat split; try done.
    eexists [_]. repeat split; simpl; try done; auto.
    intros e ->. eexists. split; [done|]. simpl. by rewrite (He e).
  - apply String.eqb_eq in Heog as ->.
    unfold invoke, mbind, M_bind, get, modify, lift. simpl.
    intros H.
    assert (w' = log (call_find_eog_events (recording w) event_id) w
            ∧ r ≠ inr None
            ∧ ∀ e, r = inl e → find_eog_events C (recording w) event_id = inl e)
      as (-> & Hr & He).
    { destruct (find_eog_events C _ _) as [e|ev];
        unfold mret, M_ret in H; simplify_eq; repeat split; congruence. }
    repeat split; try done.
    eexists [_]. repeat split; simpl; try done; auto.
    intros e ->. eexists. split; [done|]. simpl. by rewrite (He e).
  - apply String.eqb_neq in Hecg, Heog.
    unfold discard, mbind, M_bind, mret, M_ret. intros H. simplify_eq.
    repeat split; try done.
    exists []. rewrite app_nil_r. repeat split; simpl; try done; auto.
    intros [?|?]; done.
Qed.

Lemma ret_bind {A B} (a : A) (f : A → M D B) w : (mret a ≫= f) w = f a w.
Proof. reflexivity. Qed.

Lemma bind_ext {A B} (m : M D A) (f g : A → M D B) w :
  (∀ a w1, f a w1 = g a w1) → (m ≫= f) w = (m ≫= g) w.
Proof. intros H. unfold mbind, M_bind. by destruct (m w) as [[e|a] w1]. Qed.

(** Lines 115-122 delete the keys of the categories without channels. *)
Lemma handle_rejection_del_items reject w :
  handle_rejection C reject w =
  del_items reject (absent_keys C (info (raw w))) w.
Proof.
  unfold handle_rejection, absent_keys.
  unfold mbind at 1, M_bind at 1, get.
  destruct (no_channels C (info (raw w)) MegGrad false false),
    (no_channels C (info (raw w)) MegMag false false),
    (no_channels C (info (raw w)) MegFalse true false),
    (no_channels C (info (raw w)) MegFalse false true); simpl;
    repeat first
      [ reflexivity
      | rewrite !ret_bind
      | by rewrite bind_unit_id
      | apply bind_ext; intros [] ? ].
Qed.

Lemma absent_keys_NoDup i : NoDup (absent_keys C i).
Proof.
  unfold absent_keys.
  destruct (no_channels C i MegGrad false false),
    (no_channels C i MegMag false false),
    (no_channels C i MegFalse true false),
    (no_channels C i MegFalse false true); simpl;
    repeat (apply NoDup_cons; split; [set_solver|]); apply NoDup_nil_2.
Qed.

Lemma filter_raw_run picks l_freq h_freq filter_length n_jobs w r w' :
  filter_raw C picks l_freq h_freq filter_length n_jobs w = (r, w') →
  info (raw w') = info (raw w) ∧
  _preloaded (raw w') = _preloaded (raw w) ∧
  lists w' = lists w ∧ dicts w' = dicts w ∧
  added w w' (selected_filter picks l_freq h_freq filter_length n_jobs) ∧
  (selected_filter (D:=D) picks l_freq h_freq filter_length n_jobs = [] →
   w' = w).
Proof.
  unfold filter_raw, added, run_filter, invoke.
  destruct l_freq as [l|], h_freq as [h|]; simpl;
    unfold mbind, M_bind, mret, M_ret, get, modify, lift; simpl.
  - destruct (band_pass_filter C _ _ _ _ _ _); intros H; by simplify_eq.
  - destruct (low_pass_filter C _ _ _ _ _); intros H; by simplify_eq.
  - destruct (high_pass_filter C _ _ _ _ _); intros H; by simplify_eq.
  - intros H; simplify_eq. by rewrite app_nil_r.
Qed.

Lemma reduce_epochs_run events tmin tmax picks reject average
    n_grad n_mag n_eeg w r w' :
  reduce_epochs C events tmin tmax picks reject average n_grad n_mag n_eeg w
    = (r, w') →
  raw w' = raw w ∧ lists w' = lists w ∧ dicts w' = dicts w ∧
  ∃ red, added w w' red ∧
    Forall (λ c, is_detector_call c = false ∧ is_filter_call c = false ∧
                 (∀ rc, call_recording c = Some rc → rc = recording w) ∧
                 (∀ rej, call_reject c = Some rej → rej = dict_at w reject))
      red ∧
    (∀ ps, r = inr ps →
       is_Some events ∧ last red ≫= reducer_output C = Some ps ∧
       ∃ c, c ∈ red ∧ call_reject c = Some (dict_at w reject)).
Proof.
  unfold reduce_epochs, added, invoke, read_local.
  destruct events as [ev|]; simpl;
    unfold mbind, M_bind, mret, M_ret, get, modify, lift, raise; simpl.
  2:{ intros H; simplify_eq. repeat split; try done.
      exists []. rewrite app_nil_r. repeat split; try done. }
  destruct (Epochs C _ _ _ _ _ _ _ _ _) as [e|epochs] eqn:He.
  { intros H; simplify_eq. repeat split; try done.
    eexists [_]. repeat split; simpl; try done.
    repeat constructor; simpl; intros; by simplify_eq. }
  destruct average.
  - destruct (epochs_average C epochs) as [e|evoked] eqn:Ha.
    { intros H; simplify_eq. repeat split; try done.
      eexists [_; _]. simpl. rewrite <- !app_assoc. repeat split; simpl; try done.
      repeat constructor; simpl; intros; by simplify_eq. }
    destruct (compute_proj_evoked C evoked n_grad n_mag n_eeg) as [e|ps] eqn:Hp;
      intros H; simplify_eq; repeat split; try done;
      eexists [_; _; _]; simpl; rewrite <- !app_assoc;
      repeat split; simpl; try done;
      try (repeat constructor; simpl; intros; by simplify_eq).
    all: try (rewrite Hp; congruence).
    all: eexists; split; [apply list_elem_of_here|done].
  - destruct (compute_proj_epochs C epochs n_grad n_mag n_eeg) as [e|ps] eqn:Hp;
      intros H; simplify_eq; repeat split; try done;
      eexists [_; _]; simpl; rewrite <- !app_assoc;
      repeat split; simpl; try done;
      try (repeat constructor; simpl; intros; by simplify_eq).
    all: try (rewrite Hp; congruence).
    all: eexists; split; [apply list_elem_of_here|done].
Qed.


Lemma start_projs_inv no_proj w r w1 :
  start_projs no_proj w = (r, w1) →
  let p0 := if no_proj then fresh (dom (lists w))
            else info_projs (info (raw w)) in
  r = inr p0 ∧ raw w1 = raw w ∧ dicts w1 = dicts w ∧ trace w1 = trace w ∧
  list_at w1 p0 =
    (if no_proj then [] else list_at w (info_projs (info (raw w)))) ∧
  (∀ q, q ≠ p0 → lists w1 !! q = lists w !! q).
Proof.
  rewrite start_projs_run. destruct no_proj; intros H; simplify_eq; simpl.
  - repeat split; try done.
    + apply list_at_insert.
    + intros q Hq. by apply lookup_insert_ne.
  - done.
Qed.

Lemma add_avg_ref_inv avg_ref p w1 r w2 :
  add_avg_ref C avg_ref p w1 = (r, w2) →
  r = inr tt ∧ raw w2 = raw w1 ∧ dicts w2 = dicts w1 ∧
  trace w2 = trace w1 ∧
  list_at w2 p =
    (list_at w1 p ++
     if avg_ref then [make_eeg_average_ref_proj C (info (raw w1))] else [])%list ∧
  (∀ q, q ≠ p → lists w2 !! q = lists w1 !! q).
Proof.
  rewrite add_avg_ref_run. destruct avg_ref; intros H; simplify_eq; simpl.
  - repeat split; try done.
    + apply list_at_insert.
    + intros q Hq. by apply lookup_insert_ne.
  - by rewrite app_nil_r.
Qed.

Lemma handle_rejection_run reject w r w' :
  handle_rejection C reject w = (r, w') →
  raw w' = raw w ∧ lists w' = lists w ∧ trace w' = trace w ∧
  (∀ l, l ≠ reject → dicts w' !! l = dicts w !! l) ∧
  match r with
  | inr _ =>
      dict_at w' reject =
        prune (absent_keys C (info (raw w))) (dict_at w reject) ∧
      (absent_keys C (info (raw w)) = [] → w' = w) ∧
      (∀ k, k ∈ absent_keys C (info (raw w)) →
         is_Some (dict_at w reject !! k))
  | inl e => ∃ k, k ∈ absent_keys C (info (raw w)) ∧ e = KeyError k
  end.
Proof. rewrite handle_rejection_del_items. apply del_items_run. Qed.


Lemma get_bind {A} (f : World D → M D A) w : (get ≫= f) w = f w w.
Proof. reflexivity. Qed.

Lemma pipeline_run mode tmin tmax n_grad n_mag n_eeg l_freq h_freq average
    filter_length n_jobs ch_name reject bads avg_ref no_proj event_id w r w' :
  _compute_exg_proj C mode tmin tmax n_grad n_mag n_eeg l_freq h_freq average
    filter_length n_jobs ch_name reject bads avg_ref no_proj event_id w
    = (r, w') →
  _preloaded (raw w) = true →
  let i := info (raw w) in
  let p0 := if no_proj then fresh (dom (lists w)) else info_projs i in
  let head := ((if no_proj then [] else list_at w (info_projs i)) ++
               (if avg_ref then [make_eeg_average_ref_proj C i] else []))%list in
  let picks := pick_types C i MegTrue true true
                 (Some (info_bads i ++ bads)%list) in
  let sel := selected_filter picks l_freq h_freq filter_length n_jobs in
  let pruned := prune (absent_keys C i) (dict_at w reject) in
  ∃ det flt red,
    added w w' (det ++ flt ++ red) ∧
    info (raw w') = i ∧ _preloaded (raw w') = true ∧
    (∀ q, q ≠ p0 → lists w' !! q = lists w !! q) ∧
    (∀ q, q ≠ reject → dicts w' !! q = dicts w !! q) ∧
    Forall (λ c, is_detector_call c = true ∧
                 ∃ rc, call_recording c = Some rc ∧
                       data (rec_raw rc) = data (raw w)) det ∧
    (length det ≤ 1)%nat ∧
    (mode = "ECG" ∨ mode = "EOG" → det ≠ []) ∧
    (flt = [] ∨ flt = sel) ∧
    (flt = [] → data (raw w') = data (raw w)) ∧
    Forall (λ c, is_detector_call c = false ∧ is_filter_call c = false ∧
                 (∀ rc, call_recording c = Some rc → rec_raw rc = raw w') ∧
                 (∀ rej, call_reject c = Some rej → rej = pruned)) red ∧
    match r with
    | inr (p, ev) =>
        p = p0 ∧ (mode = "ECG" ∨ mode = "EOG") ∧ flt = sel ∧
        dict_at w' reject = pruned ∧
        (∀ k, k ∈ absent_keys C i → is_Some (dict_at w reject !! k)) ∧
        (∃ c, c ∈ red ∧ call_reject c = Some pruned) ∧
        ∃ ev_projs, last red ≫= reducer_output C = Some ev_projs ∧
                    list_at w' p = (head ++ ev_projs)%list
    | inl e =>
        list_at w' p0 = head ∧
        ((flt = [] ∧ red = [] ∧ dicts w' = dicts w ∧
          ∃ c, det = [c] ∧ detector_exn C c = Some e) ∨
         (flt = [] ∧ red = [] ∧
          ∃ k, k ∈ absent_keys C i ∧ e = KeyError k) ∨
         (dict_at w' reject = pruned ∧
          ∀ k, k ∈ absent_keys C i → is_Some (dict_at w reject !! k)))
    end.
Proof.
  intros H Hpre i p0 head picks sel pruned.
  assert (head = ((if no_proj then [] else list_at w (info_projs i)) ++
               (if avg_ref then [make_eeg_average_ref_proj C i] else []))%list)
    as Ehead by done.
  assert (p0 = if no_proj then fresh (dom (lists w)) else info_projs i)
    as Ep0 by done.
  assert (sel = selected_filter picks l_freq h_freq filter_length n_jobs)
    as Esel by done.
  assert (pruned = prune (absent_keys C i) (dict_at w reject))
    as Epruned by done.
  clearbody head p0 sel pruned.
  unfold _compute_exg_proj in H. rewrite get_bind, Hpre in H. simpl in H.
  apply bind_inv in H as [(e & H1 & ->)|(p & w1 & H1 & H)];
    apply start_projs_inv in H1 as (Hp & Hr1 & Hd1 & Ht1 & Hl1 & Hf1);
    [done|]. fold i in Hp, Hl1, Hf1. rewrite <- Ep0 in Hp, Hl1, Hf1.
  injection Hp as ->.
  apply bind_inv in H as [(e & H2 & ->)|([] & w2 & H2 & H)];
    apply add_avg_ref_inv in H2 as (Hu & Hr2 & Hd2 & Ht2 & Hl2 & Hf2);
    [done|]. clear Hu.
  assert (list_at w2 p0 = ((if no_proj then [] else list_at w (info_projs i)) ++
               (if avg_ref then [make_eeg_average_ref_proj C i] else []))%list)
    as Hhead.
  { rewrite Hl2, Hl1, Hr1. done. }
  assert (∀ q, q ≠ p0 → lists w2 !! q = lists w !! q) as Hframe.
  { intros q Hq. rewrite Hf2, Hf1; done. }
  clear Hl1 Hl2 Hf1 Hf2.
  rewrite Hr1 in Hr2. rewrite Hd1 in Hd2. rewrite Ht1 in Ht2.
  clear w1 Hr1 Hd1 Ht1.
  rewrite <- Ehead in Hhead.
  (* lines 103-110 *)
  apply bind_inv in H as [(e & H3 & ->)|(events & w3 & H3 & H)];
    apply detect_events_run in H3
      as (Hr3 & Hl3 & Hd3 & det & Ha3 & Hdet & Hlen & Hne & Hvalid & Hexn);
    unfold added in Ha3; rewrite Ht2 in Ha3;
    assert (Forall (λ c, is_detector_call c = true ∧
                 ∃ rc, call_recording c = Some rc ∧
                       data (rec_raw rc) = data (raw w)) det) as Hdet'
      by (eapply Forall_impl; [exact Hdet|];
          intros c [? ?]; split; [done|]; eexists; split; [done|];
          simpl; by rewrite Hr2).
  { exists det, [], []. unfold added. rewrite !app_nil_r.
    split_and!; try done.
    all: try by rewrite Hr3, Hr2.
    all: try by left.
    all: try by (intros q Hq; rewrite Hl3; apply Hframe).
    all: try by (intros q Hq; rewrite Hd3, Hd2).
    all: try by (rewrite <- Hhead; apply list_at_same; rewrite Hl3).
    left. split_and!; try done. by rewrite Hd3. by apply Hexn. }
  rewrite Hr2 in Hr3. rewrite Hd2 in Hd3. clear Hdet Hexn.
  assert (list_at w3 p0 = head) as Hhead3
    by (rewrite <- Hhead; apply list_at_same; by rewrite Hl3).
  assert (∀ q, q ≠ p0 → lists w3 !! q = lists w !! q) as Hframe3
    by (intros q Hq; rewrite Hl3; by apply Hframe).
  clear Hhead Hframe Hl3 Hr2 Hd2 Ht2 w2.
  (* lines 115-122 *)
  apply bind_inv in H as [(e & H4 & ->)|([] & w4 & H4 & H)];
    apply handle_rejection_run in H4 as (Hr4 & Hl4 & Ht4 & Hd4 & Hres);
    assert (dict_at w3 reject = dict_at w reject) as Hda
      by (apply dict_at_same; by rewrite Hd3);
    rewrite Hr3, ?Hda in Hres; fold i in Hres.
  { destruct Hres as (k & Hk & ->).
    exists det, [], []. unfold added. rewrite !app_nil_r.
    split_and!; try done.
    all: try by rewrite Hr4, Hr3.
    all: try by rewrite Ht4.
    all: try by left.
    all: try by (intros q Hq; rewrite Hl4; apply Hframe3).
    all: try by (intros q Hq; rewrite Hd4, Hd3).
    all: try by (rewrite <- Hhead3; apply list_at_same; rewrite Hl4).
    right. left. split_and!; try done. by exists k. }
  destruct Hres as (Hpr & _ & Hkeys). rewrite <- Epruned in Hpr.
  rewrite Hr3 in Hr4. rewrite Ha3 in Ht4.
  assert (list_at w4 p0 = head) as Hhead4
    by (rewrite <- Hhead3; apply list_at_same; by rewrite Hl4).
  assert (∀ q, q ≠ p0 → lists w4 !! q = lists w !! q) as Hframe4
    by (intros q Hq; rewrite Hl4; by apply Hframe3).
  assert (∀ q, q ≠ reject → dicts w4 !! q = dicts w !! q) as Hdframe4
    by (intros q Hq; rewrite Hd4, Hd3; done).
  clear Hhead3 Hframe3 Hl4 Hd4 Hd3 Hr3 Ha3 Hda w3.
  (* lines 124-131 *)
  apply bind_inv in H as [(e & H5 & ->)|([] & w5 & H5 & H)];
    apply filter_raw_run in H5 as (Hi5 & Hp5 & Hl5 & Hd5 & Ha5 & Hsame);
    rewrite Hr4 in Hi5, Hp5; fold i picks in Ha5, Hsame;
    rewrite <- Esel in Ha5, Hsame; unfold added in Ha5; rewrite Ht4 in Ha5.
  { exists det, sel, []. unfold added. rewrite !app_nil_r.
    split_and!; try done.
    all: try by rewrite Hp5.
    all: try by rewrite Ha5, app_assoc.
    all: try by right.
    all: try by (intros q Hq; rewrite Hl5; apply Hframe4).
    all: try by (intros q Hq; rewrite Hd5; apply Hdframe4).
    all: try by (intros Hnil; rewrite (Hsame Hnil), Hr4).
    all: try by (rewrite <- Hhead4; apply list_at_same; rewrite Hl5).
    right. right. split; [|done].
    rewrite <- Hpr. apply dict_at_same. by rewrite Hd5. }
  assert (dict_at w5 reject = pruned) as Hpr5
    by (rewrite <- Hpr; apply dict_at_same; by rewrite Hd5).
  assert (list_at w5 p0 = head) as Hhead5
    by (rewrite <- Hhead4; apply list_at_same; by rewrite Hl5).
  assert (∀ q, q ≠ p0 → lists w5 !! q = lists w !! q) as Hframe5
    by (intros q Hq; rewrite Hl5; by apply Hframe4).
  assert (∀ q, q ≠ reject → dicts w5 !! q = dicts w !! q) as Hdframe5
    by (intros q Hq; rewrite Hd5; by apply Hdframe4).
  assert (sel = [] → data (raw w5) = data (raw w)) as Hdata5
    by (intros Hnil; by rewrite (Hsame Hnil), Hr4).
  clear Hpr Hhead4 Hframe4 Hdframe4 Hl5 Hd5 Hsame Hr4 Ht4 w4.
  (* lines 133-142 *)
  fold i picks in H.
  apply bind_inv in H as [(e & H6 & ->)|(ev_projs & w6 & H6 & H)];
    apply reduce_epochs_run in H6
      as (Hr6 & Hl6 & Hd6 & red & Ha6 & Hred & Hps);
    unfold added in Ha6; rewrite Ha5 in Ha6;
    assert (Forall (λ c, is_detector_call c = false ∧
                 is_filter_call c = false ∧
                 (∀ rc, call_recording c = Some rc → rec_raw rc = raw w5) ∧
                 (∀ rej, call_reject c = Some rej → rej = pruned)) red)
      as Hred'
      by (eapply Forall_impl; [exact Hred|];
          intros c (? & ? & Hrc & Hrej); split_and!; try done;
          [intros rc Hc; by rewrite (Hrc rc Hc)
          |intros rej Hc; by rewrite (Hrej rej Hc)]).
  { exists det, sel, red. unfold added.
    split_and!; try done.
    all: try by rewrite Hr6.
    all: try by rewrite Ha6, <- !app_assoc.
    all: try by right.
    all: try by (intros q Hq; rewrite Hl6; apply Hframe5).
    all: try by (intros q Hq; rewrite Hd6; apply Hdframe5).
    all: try by (intros Hnil; rewrite Hr6; apply Hdata5).
    all: try by (rewrite <- Hhead5; apply list_at_same; rewrite Hl6).
    all: try by rewrite Hr6, Hp5.
    right. right. split; [|done].
    rewrite <- Hpr5. apply dict_at_same. by rewrite Hd6. }
  destruct (Hps ev_projs eq_refl) as ([ev ->] & Hlast & c & Hc & Hrej).
  rewrite Hpr5 in Hrej. clear Hps Hred.
  (* lines 143-147 *)
  unfold list_extend, modify, read_local, mbind, M_bind, mret, M_ret in H.
  simpl in H. injection H as <- <-.
  exists det, sel, red. unfold added. simpl.
  split_and!; try done.
  all: try by rewrite Hr6.
  all: try by rewrite Ha6, <- !app_assoc.
  all: try by right.
  all: try by (intros q Hq; rewrite lookup_insert_ne by done;
               rewrite Hl6; apply Hframe5).
  all: try by (intros q Hq; rewrite Hd6; apply Hdframe5).
  all: try by (intros Hnil; rewrite Hr6; apply Hdata5).
  all: try by eapply Hvalid.
  all: try by rewrite Hr6, Hp5.
  - rewrite <- Hpr5. unfold dict_at. simpl. by rewrite Hd6.
  - by exists c.
  - exists ev_projs. split; [done|]. rewrite list_at_insert.
    f_equal. rewrite <- Hhead5. apply list_at_same. by rewrite Hl6.
Qed.


End Stages.

Section Outcome.
Context {D : Domain} (C : Collaborators D).
Implicit Types (w : World D) (d p : loc) (k : string) (c : Call D).

Lemma filter_raw_outcome picks l_freq h_freq filter_length n_jobs w r w' :
  filter_raw C picks l_freq h_freq filter_length n_jobs w = (r, w') →
  match r with
  | inl e =>
      apply_selected_filter C (raw w) picks l_freq h_freq filter_length n_jobs
      = inl e ∧ raw w' = raw w
  | inr _ =>
      apply_selected_filter C (raw w) picks l_freq h_freq filter_length n_jobs
      = inr (data (raw w'))
  end.
Proof.
  unfold filter_raw, run_filter, invoke, apply_selected_filter.
  destruct l_freq as [l|], h_freq as [h|]; simpl;
    unfold mbind, M_bind, mret, M_ret, get, modify, lift; simpl.
  - destruct (band_pass_filter C _ _ _ _ _ _); intros H; by simplify_eq.
  - destruct (low_pass_filter C _ _ _ _ _); intros H; by simplify_eq.
  - destruct (high_pass_filter C _ _ _ _ _); intros H; by simplify_eq.
  - intros H; by simplify_eq.
Qed.

(** Where a run on a preloaded recording ends: before the filtering
    block, in the filter, or after it. *)
Lemma pipeline_outcome mode tmin tmax n_grad n_mag n_eeg l_freq h_freq
    average filter_length n_jobs ch_name reject bads avg_ref no_proj
    event_id w r w' :
  _compute_exg_proj C mode tmin tmax n_grad n_mag n_eeg l_freq h_freq average
    filter_length n_jobs ch_name reject bads avg_ref no_proj event_id w
  = (r, w') →
  _preloaded (raw w) = true →
  let i := info (raw w) in
  let picks := pick_types C i MegTrue true true
                 (Some (info_bads i ++ bads)%list) in
  let sel := selected_filter picks l_freq h_freq filter_length n_jobs in
  ∃ det red,
    Forall (λ c, is_detector_call c = true ∧
                 ∃ rc, call_recording c = Some rc ∧
                       data (rec_raw rc) = data (raw w)) det ∧
    (mode = "ECG" ∨ mode = "EOG" → det ≠ []) ∧
    Forall (λ c, is_detector_call c = false ∧ is_filter_call c = false ∧
                 ∀ rc, call_recording c = Some rc → rec_raw rc = raw w') red ∧
    ((∃ e, r = inl e ∧ added w w' det ∧ data (raw w') = data (raw w) ∧
           ((∃ c, c ∈ det ∧ detector_exn C c = Some e) ∨
            (∃ k, k ∈ absent_keys C i ∧ e = KeyError k))) ∨
     (∃ e, r = inl e ∧ added w w' (det ++ sel) ∧
           data (raw w') = data (raw w) ∧
           apply_selected_filter C (raw w) picks l_freq h_freq filter_length
             n_jobs = inl e) ∨
     (added w w' (det ++ sel ++ red) ∧
      apply_selected_filter C (raw w) picks l_freq h_freq filter_length
        n_jobs = inr (data (raw w')) ∧
      (mode = "ECG" ∨ mode = "EOG" ∨
       (r = inl (UnboundLocalError "events") ∧ red = [])))).
Proof.
  intros H Hpre i picks sel. subst i picks sel.
  unfold _compute_exg_proj in H. rewrite get_bind, Hpre in H. simpl in H.
  apply bind_inv in H as [(e & H1 & ?)|(p0 & w1 & H1 & H)];
    apply start_projs_inv in H1 as (Hp & Hr1 & _ & Ht1 & _); [done|].
  apply bind_inv in H as [(e & H2 & ?)|([] & w2 & H2 & H)];
    apply (add_avg_ref_inv C) in H2 as (Hu & Hr2 & _ & Ht2 & _); [done|].
  rewrite Hr1 in Hr2. rewrite Ht1 in Ht2. clear Hp Hu Hr1 Ht1 w1.
  (* lines 103-110 *)
  apply bind_inv in H as [(e & H3 & ->)|(events & w3 & H3 & H)];
    apply (detect_events_run C) in H3
      as (Hr3 & _ & _ & det & Ha3 & Hdet & _ & Hne & Hvalid & Hexn);
    unfold added in Ha3; rewrite Ht2 in Ha3; rewrite Hr2 in Hr3;
    assert (Forall (λ c, is_detector_call c = true ∧
                 ∃ rc, call_recording c = Some rc ∧
                       data (rec_raw rc) = data (raw w)) det) as Hdet'
      by (eapply Forall_impl; [exact Hdet|];
          intros c [? ?]; split; [done|]; eexists; split; [done|];
          simpl; by rewrite Hr2).
  { exists det, []. split_and!; try done. left. exists e.
    split_and!; try done; [by rewrite Hr3|]. left.
    destruct (Hexn e eq_refl) as (c & -> & Hc). exists c.
    split; [apply list_elem_of_here|done]. }
  clear Hdet Hexn Hr2 Ht2 w2.
  (* lines 115-122 *)
  apply bind_inv in H as [(e & H4 & ->)|([] & w4 & H4 & H)];
    apply (handle_rejection_run C) in H4 as (Hr4 & _ & Ht4 & _ & Hres);
    rewrite Hr3 in Hr4, Hres; rewrite Ha3 in Ht4.
  { destruct Hres as (k & Hk & ->). exists det, [].
    split_and!; try done. left. eexists.
    split_and!; try done; [by rewrite Hr4|]. right. by exists k. }
  clear Hres Hr3 Ha3 w3.
  (* lines 124-131 *)
  apply bind_inv in H as [(e & H5 & ->)|([] & w5 & H5 & H)];
    pose proof (filter_raw_outcome _ _ _ _ _ _ _ _ H5) as Hout;
    apply (filter_raw_run C) in H5 as (_ & _ & _ & _ & Ha5 & _);
    unfold added in Ha5; rewrite Ht4 in Ha5; rewrite Hr4 in Hout.
  { destruct Hout as [Hout Hr5]. exists det, [].
    split_and!; try done. right. left. exists e.
    split_and!; try done.
    - unfold added. by rewrite Ha5, app_assoc.
    - by rewrite Hr5. }
  clear Hr4 Ht4 w4.
  (* lines 133-147 *)
  apply bind_inv in H as [(e & H6 & ->)|(ev_projs & w6 & H6 & H)];
    pose proof (reduce_epochs_run C _ _ _ _ _ _ _ _ _ _ _ _ H6)
      as (Hr6 & _ & _ & red & Ha6 & Hred & Hps);
    unfold added in Ha6; rewrite Ha5 in Ha6;
    assert (Forall (λ c, is_detector_call c = false ∧
                 is_filter_call c = false ∧
                 ∀ rc, call_recording c = Some rc → rec_raw rc = raw w5) red)
      as Hred'
      by (eapply Forall_impl; [exact Hred|];
          intros c (? & ? & Hrc & _); split_and!; try done;
          intros rc Hc; by rewrite (Hrc rc Hc)).
  { exists det, red. rewrite Hr6. split_and!; try done. right. right.
    split_and!; try done.
    - unfold added. by rewrite Ha6, <- !app_assoc.
    - destruct events as [ev|]; [destruct (Hvalid ev eq_refl); auto|].
      right. right.
      unfold reduce_epochs, read_local, raise, mbind, M_bind, get in H6.
      simpl in H6. simplify_eq.
      split; [done|]. rewrite Ha5 in Ha6.
      apply (f_equal length) in Ha6. rewrite !length_app in Ha6.
      destruct red; [done|simpl in Ha6; lia]. }
  destruct (Hps ev_projs eq_refl) as ([ev ->] & _).
  unfold list_extend, modify, read_local, mbind, M_bind, mret, M_ret in H.
  simpl in H. injection H as <- <-.
  exists det, red. simpl. rewrite Hr6. split_and!; try done. right. right.
  split_and!; try done.
  - unfold added. simpl. by rewrite Ha6, <- !app_assoc.
  - destruct (Hvalid ev eq_refl); auto.
Qed.

End Outcome.

Section Claims.
Context {D : Domain} (C : Collaborators D).
Implicit Types (w : World D) (d p : loc) (k : string) (c : Call D).

(** ** Helper facts on traces and keys *)

Lemma detector_not_filter c :
  is_detector_call c = true → is_filter_call c = false.
Proof. by destruct c. Qed.

Lemma filter_none {A} (f : A → bool) (l : list A) :
  Forall (λ x, f x = false) l → List.filter f l = [].
Proof.
  induction 1 as [|x l Hx _ IH]; [done|]. simpl. by rewrite Hx.
Qed.

Lemma filter_all {A} (f : A → bool) (l : list A) :
  Forall (λ x, f x = true) l → List.filter f l = l.
Proof.
  induction 1 as [|x l Hx _ IH]; [done|]. simpl. by rewrite Hx, IH.
Qed.

Lemma selected_filter_calls picks l_freq h_freq filter_length n_jobs :
  Forall (λ c, is_filter_call c = true)
    (selected_filter (D:=D) picks l_freq h_freq filter_length n_jobs).
Proof. destruct l_freq, h_freq; repeat constructor. Qed.

Lemma selected_filter_length picks l_freq h_freq filter_length n_jobs :
  (length (selected_filter (D:=D) picks l_freq h_freq filter_length n_jobs)
   ≤ 1)%nat.
Proof. destruct l_freq, h_freq; simpl; lia. Qed.

Lemma elem_of_absent_keys i k :
  k ∈ absent_keys C i ↔ category_empty C i k = true.
Proof.
  unfold absent_keys, category_empty.
  destruct (String.eqb_spec k "grad") as [->|Hg].
  { destruct (no_channels C i MegGrad false false),
      (no_channels C i MegMag false false),
      (no_channels C i MegFalse true false),
      (no_channels C i MegFalse false true); set_solver. }
  destruct (String.eqb_spec k "mag") as [->|Hm].
  { destruct (no_channels C i MegGrad false false),
      (no_channels C i MegMag false false),
      (no_channels C i MegFalse true false),
      (no_channels C i MegFalse false true); set_solver. }
  destruct (String.eqb_spec k "eeg") as [->|He].
  { destruct (no_channels C i MegGrad false false),
      (no_channels C i MegMag false false),
      (no_channels C i MegFalse true false),
      (no_channels C i MegFalse false true); set_solver. }
  destruct (String.eqb_spec k "eog") as [->|Ho].
  { destruct (no_channels C i MegGrad false false),
      (no_channels C i MegMag false false),
      (no_channels C i MegFalse true false),
      (no_channels C i MegFalse false true); set_solver. }
  destruct (no_channels C i MegGrad false false),
    (no_channels C i MegMag false false),
    (no_channels C i MegFalse true false),
    (no_channels C i MegFalse false true); set_solver.
Qed.

Lemma not_preloaded_run mode tmin tmax n_grad n_mag n_eeg l_freq h_freq
    average filter_length n_jobs ch_name reject bads avg_ref no_proj
    event_id w :
  _preloaded (raw w) = false →
  _compute_exg_proj C mode tmin tmax n_grad n_mag n_eeg l_freq h_freq average
    filter_length n_jobs ch_name reject bads avg_ref no_proj event_id w
  = (inl (ValueError
            "raw needs to be preloaded, use preload=True in constructor"), w).
Proof.
  intros H. unfold _compute_exg_proj. rewrite get_bind, H. reflexivity.
Qed.

Lemma compute_proj_ecg_run (a : kwargs) w :
  compute_proj_ecg C a w =
  _compute_exg_proj C "ECG" (tmin a) (tmax a) (n_grad a) (n_mag a) (n_eeg a)
    (l_freq a) (h_freq a) (average a) (filter_length a) (n_jobs a)
    (ch_name a) (reject a) (bads a) (avg_ref a) (no_proj a) (event_id a) w.
Proof.
  unfold compute_proj_ecg, mbind, M_bind.
  by destruct (_compute_exg_proj _ _ _ _ _ _ _ _ _ _ _ _ _ _ _ _ _ _ _)
    as [[e|[p ev]] w1].
Qed.

Lemma compute_proj_eog_run (a : kwargs) w :
  compute_proj_eog C a w =
  _compute_exg_proj C "EOG" (tmin a) (tmax a) (n_grad a) (n_mag a) (n_eeg a)
    (l_freq a) (h_freq a) (average a) (filter_length a) (n_jobs a)
    None (reject a) (bads a) (avg_ref a) (no_proj a) (event_id a) w.
Proof.
  unfold compute_proj_eog, mbind, M_bind.
  by destruct (_compute_exg_proj _ _ _ _ _ _ _ _ _ _ _ _ _ _ _ _ _ _ _)
    as [[e|[p ev]] w1].
Qed.

(** C8. A recording that is not preloaded makes the pipeline, and with
    it both wrappers, raise [ValueError] at once: the store after the
    call is the store before it, so neither the recording nor the
    rejection dict nor any list has been touched, and no collaborator
    has been called. *)
Theorem not_preloaded_raises_before_any_mutation
    mode tmin tmax n_grad n_mag n_eeg l_freq h_freq average filter_length
    n_jobs ch_name reject bads avg_ref no_proj event_id (a : kwargs) w :
  _preloaded (raw w) = false →
  let err := ValueError
    "raw needs to be preloaded, use preload=True in constructor" in
  _compute_exg_proj C mode tmin tmax n_grad n_mag n_eeg l_freq h_freq average
    filter_length n_jobs ch_name reject bads avg_ref no_proj event_id w
    = (inl err, w) ∧
  compute_proj_ecg C a w = (inl err, w) ∧
  compute_proj_eog C a w = (inl err, w).
Proof.
  intros H err. rewrite compute_proj_ecg_run, compute_proj_eog_run.
  rewrite !not_preloaded_run by done. done.
Qed.

(** C7. In the store the import leaves, the default [reject] of the
    ocular wrapper holds [np.inf] under ['eog'], which is not finite,
    and the default [reject] of the cardiac wrapper holds [250e-6]
    there, which is finite. *)
Theorem default_eog_thresholds w :
  dict_at (import_ssp w) (reject eog_defaults) !! "eog" = Some np_inf ∧
  is_finite np_inf = false ∧
  dict_at (import_ssp w) (reject ecg_defaults) !! "eog" = Some f_250e_6 ∧
  is_finite f_250e_6 = true.
Proof.
  unfold dict_at, import_ssp. simpl.
  rewrite lookup_total_insert_eq.
  rewrite lookup_total_insert_ne by done. rewrite lookup_total_insert_eq.
  done.
Qed.


(** Every run, whatever its outcome: the calls it makes are the detector
    call, then the selected filter call, then the epoching and reducer
    calls; a run may stop early. *)
Lemma pipeline_calls mode tmin tmax n_grad n_mag n_eeg l_freq h_freq average
    filter_length n_jobs ch_name reject bads avg_ref no_proj event_id w :
  let w' := (_compute_exg_proj C mode tmin tmax n_grad n_mag n_eeg l_freq
               h_freq average filter_length n_jobs ch_name reject bads
               avg_ref no_proj event_id w).2 in
  let i := info (raw w) in
  let picks := pick_types C i MegTrue true true
                 (Some (info_bads i ++ bads)%list) in
  let sel := selected_filter picks l_freq h_freq filter_length n_jobs in
  ∃ det flt red,
    added w w' (det ++ flt ++ red) ∧
    Forall (λ c, is_detector_call c = true ∧
                 ∃ rc, call_recording c = Some rc ∧
                       data (rec_raw rc) = data (raw w)) det ∧
    (_preloaded (raw w) = true → mode = "ECG" ∨ mode = "EOG" → det ≠ []) ∧
    (flt = [] ∨ flt = sel) ∧
    (flt = [] → data (raw w') = data (raw w)) ∧
    Forall (λ c, is_detector_call c = false ∧ is_filter_call c = false ∧
                 (∀ rc, call_recording c = Some rc → rec_raw rc = raw w') ∧
                 (∀ rej, call_reject c = Some rej →
                    rej = prune (absent_keys C i) (dict_at w reject))) red.
Proof.
  intros w' i picks sel.
  destruct (_preloaded (raw w)) eqn:Hpre.
  - destruct (_compute_exg_proj C mode tmin tmax n_grad n_mag n_eeg l_freq
               h_freq average filter_length n_jobs ch_name reject bads
               avg_ref no_proj event_id w) as [r w1] eqn:Hrun.
    apply pipeline_run in Hrun; [|done].
    destruct Hrun as (det & flt & red & Ha & _ & _ & _ & _ & Hdet & _ &
                      Hne & Hflt & Hdata & Hred & _).
    exists det, flt, red. subst w'. simpl. split_and!; done.
  - subst w'. rewrite not_preloaded_run by done. simpl.
    exists [], [], []. unfold added. rewrite !app_nil_r.
    split_and!; try done. by left.
Qed.

(** C3. Lines 126-131 make the one filter call that [selected_filter]
    names and no other: none when both bounds are [None], in which case
    the store is left as it was; and when [l_freq] is set and [h_freq]
    is [None], the call is [low_pass_filter] with [h_freq], that is
    [None], as its cutoff, and the block ends as that call ends.  In a
    whole run of the pipeline at most one filter call is made, it is the
    selected one, and with both bounds [None] the signal is unchanged.
    And the selected filter is called in every run that gets to line 126:
    a run ends before the filtering block only when the recording is not
    preloaded, when the detector raises or when the pruning raises
    [KeyError], in which cases the signal is as it was; every other run
    has called the selected filter, after the detector, on the recording
    as it was on entry, and either raises what the filter raised or goes
    on with the signal the filter returned. *)
Theorem at_most_one_filter_is_applied
    mode tmin tmax n_grad n_mag n_eeg l_freq h_freq average filter_length
    n_jobs ch_name reject bads avg_ref no_proj event_id w :
  let i := info (raw w) in
  let picks := pick_types C i MegTrue true true
                 (Some (info_bads i ++ bads)%list) in
  let sel := selected_filter picks l_freq h_freq filter_length n_jobs in
  let run := _compute_exg_proj C mode tmin tmax n_grad n_mag n_eeg l_freq
               h_freq average filter_length n_jobs ch_name reject bads
               avg_ref no_proj event_id w in
  let w' := run.2 in
  (* the filtering block *)
  (∀ v, added v (filter_raw C picks l_freq h_freq filter_length n_jobs v).2
          sel) ∧
  (length sel ≤ 1)%nat ∧
  (l_freq = None → h_freq = None →
   sel = [] ∧
   ∀ v, filter_raw C picks l_freq h_freq filter_length n_jobs v
        = (inr tt, v)) ∧
  (∀ lo, l_freq = Some lo → h_freq = None →
   sel = [call_low_pass_filter picks h_freq filter_length n_jobs] ∧
   (∀ v, (filter_raw C picks l_freq h_freq filter_length n_jobs v).1
         = match low_pass_filter C (raw v) picks None filter_length n_jobs
           with
           | inl e => inl e
           | inr _ => inr tt
           end) ∧
   (∀ r0, apply_selected_filter C r0 picks l_freq h_freq filter_length
            n_jobs
          = low_pass_filter C r0 picks None filter_length n_jobs)) ∧
  (* the whole run: no more than the selected call *)
  (∃ new, added w w' new ∧
     (length (List.filter is_filter_call new) ≤ 1)%nat ∧
     (∀ c, c ∈ new → is_filter_call c = true → c ∈ sel) ∧
     (l_freq = None → h_freq = None → data (raw w') = data (raw w))) ∧
  (* the whole run: no less than the selected call *)
  ∃ det red,
    Forall (λ c, is_detector_call c = true) det ∧
    Forall (λ c, is_detector_call c = false ∧ is_filter_call c = false) red ∧
    ((∃ e, run.1 = inl e ∧ added w w' det ∧ data (raw w') = data (raw w) ∧
           (_preloaded (raw w) = false ∨
            (∃ c, c ∈ det ∧ detector_exn C c = Some e) ∨
            (∃ k, category_empty C i k = true ∧ e = KeyError k))) ∨
     (∃ e, run.1 = inl e ∧ added w w' (det ++ sel) ∧
           data (raw w') = data (raw w) ∧
           apply_selected_filter C (raw w) picks l_freq h_freq filter_length
             n_jobs = inl e) ∨
     (added w w' (det ++ sel ++ red) ∧
      apply_selected_filter C (raw w) picks l_freq h_freq filter_length
        n_jobs = inr (data (raw w')))).
Proof.
  intros i picks sel run w'. split_and!.
  - intros v.
    destruct (filter_raw C picks l_freq h_freq filter_length n_jobs v)
      as [r v'] eqn:Hf.
    by apply filter_raw_run in Hf as (_ & _ & _ & _ & Ha & _).
  - apply selected_filter_length.
  - intros -> ->. split; [done|]. intros v. reflexivity.
  - intros lo -> ->. split_and!; [done| |done]. intros v.
    unfold filter_raw, run_filter, invoke. simpl.
    unfold mbind, M_bind, mret, M_ret, get, modify, lift. simpl.
    by destruct (low_pass_filter C _ _ _ _ _).
  - destruct (pipeline_calls mode tmin tmax n_grad n_mag n_eeg l_freq h_freq
                average filter_length n_jobs ch_name reject bads avg_ref
                no_proj event_id w)
      as (det & flt & red & Ha & Hdet & _ & Hflt & Hdata & Hred).
    fold run w' i picks sel in Ha, Hflt, Hdata, Hred.
    exists (det ++ flt ++ red)%list.
    assert (List.filter is_filter_call det = []) as Ed.
    { apply filter_none. eapply Forall_impl; [exact Hdet|].
      intros c [Hc _]. by apply detector_not_filter. }
    assert (List.filter is_filter_call red = []) as Er.
    { apply filter_none. eapply Forall_impl; [exact Hred|].
      by intros c (_ & Hc & _). }
    assert (List.filter is_filter_call flt = flt) as Ef.
    { apply filter_all. destruct Hflt as [->| ->]; [constructor|].
      apply selected_filter_calls. }
    split_and!.
    + done.
    + rewrite !List.filter_app, Ed, Er, Ef, app_nil_r. simpl.
      destruct Hflt as [->| ->]; [simpl; lia|apply selected_filter_length].
    + intros c Hc Hfc.
      apply elem_of_app in Hc as [Hc|Hc].
      { rewrite Forall_forall in Hdet. destruct (Hdet c Hc) as [Hd _].
        apply detector_not_filter in Hd. congruence. }
      apply elem_of_app in Hc as [Hc|Hc].
      { destruct Hflt as [->| ->]; [set_solver|done]. }
      rewrite Forall_forall in Hred. destruct (Hred c Hc) as (_ & Hn & _).
      congruence.
    + intros -> ->. apply Hdata. by destruct Hflt as [->| ->].
  - destruct (_preloaded (raw w)) eqn:Hpre.
    + destruct run as [r w1] eqn:Hrun. subst w'. simpl.
      apply pipeline_outcome in Hrun; [|done].
      destruct Hrun as (det & red & Hdet & _ & Hred & Hcases).
      exists det, red. split_and!.
      * eapply Forall_impl; [exact Hdet|]. by intros c [? _].
      * eapply Forall_impl; [exact Hred|]. by intros c (? & ? & _).
      * destruct Hcases as [(e & -> & Ha & Hd & Hwhy)|[Hcase|Hcase]].
        -- left. exists e. split_and!; try done. right.
           destruct Hwhy as [Hwhy|(k & Hk & ->)]; [by left|right].
           exists k. split; [|done]. by apply elem_of_absent_keys.
        -- right. by left.
        -- right. right. by destruct Hcase as (? & ? & _).
    + subst w' run. rewrite not_preloaded_run by done. simpl.
      exists [], []. split_and!; try done. left. eexists.
      split_and!; try done; [|by left]. unfold added. by rewrite app_nil_r.
Qed.


Lemma filter_not_detector c :
  is_filter_call c = true → is_detector_call c = false.
Proof. by destruct c. Qed.

(** C2, as the code has it.  The detector is called before any filter
    call of the run, and it is handed the recording with the signal it
    had on entry.  It is the epoching call that is handed the filtered
    signal: the signal of its recording is what the selected filter
    returned for the recording as it was on entry, and it is the signal
    the run leaves.  On a preloaded recording and with mode ['ECG'] or
    ['EOG'] a detector call is made, and no filter call, epoching call or
    reducer call is made before it. *)
Theorem detection_reads_the_signal_before_filtering
    mode tmin tmax n_grad n_mag n_eeg l_freq h_freq average filter_length
    n_jobs ch_name reject bads avg_ref no_proj event_id w :
  let w' := (_compute_exg_proj C mode tmin tmax n_grad n_mag n_eeg l_freq
               h_freq average filter_length n_jobs ch_name reject bads
               avg_ref no_proj event_id w).2 in
  let picks := pick_types C (info (raw w)) MegTrue true true
                 (Some (info_bads (info (raw w)) ++ bads)%list) in
  ∃ new, added w w' new ∧
    detection_precedes_filtering new ∧
    (∀ c rc, c ∈ new → is_detector_call c = true →
       call_recording c = Some rc → data (rec_raw rc) = data (raw w)) ∧
    (∀ c rc, c ∈ new → is_detector_call c = false →
       call_recording c = Some rc →
       rec_raw rc = raw w' ∧
       apply_selected_filter C (raw w) picks l_freq h_freq filter_length
         n_jobs = inr (data (rec_raw rc))) ∧
    (_preloaded (raw w) = true → mode = "ECG" ∨ mode = "EOG" →
     ∃ c, head new = Some c ∧ is_detector_call c = true).
Proof.
  intros w' picks.
  assert (∀ det flt red : list (Call D),
            Forall (λ c, is_detector_call c = true) det →
            Forall (λ c, is_detector_call c = false) (flt ++ red) →
            detection_precedes_filtering (det ++ flt ++ red)) as Horder.
  { intros det flt red Hdet Hrest. rewrite Forall_forall in Hdet, Hrest.
    intros i j c d Hi Hj Hc Hd.
    apply lookup_app_Some in Hi as [Hi|[_ Hi]].
    2:{ apply list_elem_of_lookup_2 in Hi. specialize (Hrest c Hi).
        congruence. }
    apply lookup_app_Some in Hj as [Hj|[Hj _]].
    { apply list_elem_of_lookup_2 in Hj. specialize (Hdet d Hj).
      apply detector_not_filter in Hdet. congruence. }
    apply lookup_lt_Some in Hi. lia. }
  destruct (_preloaded (raw w)) eqn:Hpre.
  2:{ subst w'. rewrite not_preloaded_run by done. simpl.
      exists []. unfold added. rewrite app_nil_r. split_and!; try done.
      all: intros c rc Hc; by apply elem_of_nil in Hc. }
  destruct (_compute_exg_proj C mode tmin tmax n_grad n_mag n_eeg l_freq
               h_freq average filter_length n_jobs ch_name reject bads
               avg_ref no_proj event_id w) as [r w1] eqn:Hrun.
  subst w'. simpl.
  apply pipeline_outcome in Hrun; [|done].
  destruct Hrun as (det & red & Hdet & Hne & Hred & Hcases).
  fold picks in Hcases.
  set (sel := selected_filter picks l_freq h_freq filter_length n_jobs) in *.
  assert (∀ flt red' : list (Call D),
            Forall (λ c, is_filter_call c = true) flt →
            Forall (λ c, is_detector_call c = false ∧
                         ∀ rc, call_recording c = Some rc →
                           rec_raw rc = raw w1 ∧
                           apply_selected_filter C (raw w) picks l_freq
                             h_freq filter_length n_jobs
                           = inr (data (rec_raw rc))) red' →
            added w w1 (det ++ flt ++ red') →
            ∃ new, added w w1 new ∧
              detection_precedes_filtering new ∧
              (∀ c rc, c ∈ new → is_detector_call c = true →
                 call_recording c = Some rc →
                 data (rec_raw rc) = data (raw w)) ∧
              (∀ c rc, c ∈ new → is_detector_call c = false →
                 call_recording c = Some rc →
                 rec_raw rc = raw w1 ∧
                 apply_selected_filter C (raw w) picks l_freq h_freq
                   filter_length n_jobs = inr (data (rec_raw rc))) ∧
              (true = true → mode = "ECG" ∨ mode = "EOG" →
               ∃ c, head new = Some c ∧ is_detector_call c = true)) as Hgen.
  { intros flt red' Hflt Hred' Ha.
    rewrite Forall_forall in Hdet, Hflt, Hred'.
    exists (det ++ flt ++ red')%list. split_and!; [done|..].
    - apply Horder.
      + apply Forall_forall. intros c Hc. by destruct (Hdet c Hc).
      + apply Forall_forall. intros c Hc.
        apply elem_of_app in Hc as [Hc|Hc].
        * by apply filter_not_detector, Hflt.
        * by destruct (Hred' c Hc).
    - intros c rc Hc Hdc Hrc.
      apply elem_of_app in Hc as [Hc|Hc].
      { destruct (Hdet c Hc) as (_ & rc' & Hrc' & Hdata). congruence. }
      apply elem_of_app in Hc as [Hc|Hc].
      + apply Hflt, filter_not_detector in Hc. congruence.
      + destruct (Hred' c Hc). congruence.
    - intros c rc Hc Hdc Hrc.
      apply elem_of_app in Hc as [Hc|Hc].
      { destruct (Hdet c Hc) as [? _]. congruence. }
      apply elem_of_app in Hc as [Hc|Hc].
      + apply Hflt in Hc. by destruct c.
      + destruct (Hred' c Hc) as [_ Hr]. by apply Hr.
    - intros _ Hmode. specialize (Hne Hmode).
      destruct det as [|c det]; [done|]. exists c. split; [done|].
      destruct (Hdet c) as [? _]; [apply list_elem_of_here|done]. }
  destruct Hcases as [(e & _ & Ha & _)|[(e & _ & Ha & _)|(Ha & Hsig & _)]].
  - apply (Hgen [] []); [constructor..|]. by rewrite !app_nil_r.
  - apply (Hgen sel []); [apply selected_filter_calls|constructor|].
    by rewrite app_nil_r.
  - apply (Hgen sel red); [apply selected_filter_calls| |done].
    eapply Forall_impl; [exact Hred|]. intros c (? & _ & Hr).
    split; [done|]. intros rc Hrc. rewrite (Hr rc Hrc). done.
Qed.


Lemma success_preloaded mode tmin tmax n_grad n_mag n_eeg l_freq h_freq
    average filter_length n_jobs ch_name reject bads avg_ref no_proj
    event_id w x w' :
  _compute_exg_proj C mode tmin tmax n_grad n_mag n_eeg l_freq h_freq average
    filter_length n_jobs ch_name reject bads avg_ref no_proj event_id w
  = (inr x, w') →
  _preloaded (raw w) = true.
Proof.
  intros H. destruct (_preloaded (raw w)) eqn:Hpre; [done|].
  by rewrite not_preloaded_run in H.
Qed.

Lemma last_app_nonempty {A} (l1 l2 : list A) :
  l2 ≠ [] → last (l1 ++ l2) = last l2.
Proof.
  intros H. destruct l2 as [|x l2 _] using rev_ind; [done|].
  by rewrite app_assoc, !last_snoc.
Qed.

Lemma last_calls (det flt red : list (Call D)) ps :
  last red ≫= reducer_output C = Some ps →
  last (det ++ flt ++ red) ≫= reducer_output C = Some ps.
Proof.
  intros H.
  assert (red ≠ []) as Hred by (intros ->; simpl in H; done).
  rewrite (last_app_nonempty det), (last_app_nonempty flt); [done..|].
  intros Hnil. by apply app_eq_nil in Hnil as [_ ?].
Qed.

Lemma prune_absent_lookup i (m : gmap string float) k :
  prune (absent_keys C i) m !! k =
  if category_empty C i k then None else m !! k.
Proof.
  rewrite prune_lookup.
  destruct (category_empty C i k) eqn:Hk.
  - apply elem_of_absent_keys in Hk. by rewrite bool_decide_eq_true_2.
  - rewrite bool_decide_eq_false_2; [done|].
    intros H. apply elem_of_absent_keys in H. congruence.
Qed.

(** C4, as the code has it.  The count that decides the pruning of a
    category is the one [pick_types] returns for the recording's
    metadata when no [exclude] list is passed: the caller's [bads] play no
    part in it.  On a dict that has the four keys the block raises
    nothing; afterwards a key is gone exactly when that count is zero and
    the other entries are as they were; and every epoching call of a run
    is handed that pruned dict, one such call being made in every run
    that returns. *)
Theorem pruning_follows_the_unexcluded_counts
    mode tmin tmax n_grad n_mag n_eeg l_freq h_freq average filter_length
    n_jobs ch_name reject bads avg_ref no_proj event_id w :
  (∀ k, k ∈ ["grad"; "mag"; "eeg"; "eog"] →
        is_Some (dict_at w reject !! k)) →
  let i := info (raw w) in
  let pruned := prune (absent_keys C i) (dict_at w reject) in
  let run := _compute_exg_proj C mode tmin tmax n_grad n_mag n_eeg l_freq
               h_freq average filter_length n_jobs ch_name reject bads
               avg_ref no_proj event_id w in
  (∃ w1, handle_rejection C reject w = (inr tt, w1) ∧
         dict_at w1 reject = pruned ∧
         raw w1 = raw w ∧ lists w1 = lists w ∧ trace w1 = trace w) ∧
  (∀ k, pruned !! k =
        if category_empty C i k then None else dict_at w reject !! k) ∧
  ∃ new, added w run.2 new ∧
    (∀ c rej, c ∈ new → call_reject c = Some rej → rej = pruned) ∧
    (∀ x, run.1 = inr x → ∃ c, c ∈ new ∧ call_reject c = Some pruned).
Proof.
  intros Hkeys i pruned run. split_and!.
  - assert (∀ k, k ∈ absent_keys C i → is_Some (dict_at w reject !! k))
      as Habs.
    { intros k Hk. apply Hkeys. apply elem_of_absent_keys in Hk.
      unfold category_empty in Hk.
      rewrite !elem_of_cons.
      destruct (String.eqb_spec k "grad"); [tauto|].
      destruct (String.eqb_spec k "mag"); [tauto|].
      destruct (String.eqb_spec k "eeg"); [tauto|].
      destruct (String.eqb_spec k "eog"); [tauto|done]. }
    destruct (del_items_ok reject (absent_keys C i) w
                (absent_keys_NoDup C i) Habs) as [w1 Hw1].
    exists w1. rewrite handle_rejection_del_items. fold i. split; [done|].
    apply del_items_run in Hw1 as (? & ? & ? & _ & ? & _). done.
  - intros k. apply prune_absent_lookup.
  - destruct (_preloaded (raw w)) eqn:Hpre.
    + destruct run as [r w'] eqn:Hrun. unfold run in Hrun.
      apply pipeline_run in Hrun; [|done].
      destruct Hrun as (det & flt & red & Ha & _ & _ & _ & _ & Hdet & _ &
                        _ & Hflt & _ & Hred & Hres).
      exists (det ++ flt ++ red)%list. simpl. split_and!; [done|..].
      * intros c rej Hc Hrej.
        apply elem_of_app in Hc as [Hc|Hc].
        { rewrite Forall_forall in Hdet. destruct (Hdet c Hc) as [? _].
          by destruct c. }
        apply elem_of_app in Hc as [Hc|Hc].
        { destruct Hflt as [->| ->]; [set_solver|].
          pose proof (selected_filter_calls
            (pick_types C (info (raw w)) MegTrue true true
               (Some (info_bads (info (raw w)) ++ bads)%list))
            l_freq h_freq filter_length n_jobs) as Hsel.
          rewrite Forall_forall in Hsel. specialize (Hsel c Hc).
          by destruct c. }
        rewrite Forall_forall in Hred.
        destruct (Hred c Hc) as (_ & _ & _ & Hr). by apply Hr.
      * intros x Hok. destruct r as [e|[p ev]]; [done|].
        destruct Hres as (_ & _ & _ & _ & _ & (c & Hc & Hrej) & _).
        exists c. split; [set_solver|done].
    + unfold run. rewrite not_preloaded_run by done. simpl.
      exists []. unfold added. rewrite app_nil_r. split_and!; [done|..].
      * intros c rej Hc. set_solver.
      * intros x Hok. done.
Qed.


(** C5. With [avg_ref=True] and [no_proj=False], a run that returns
    hands back a list that holds, in this order, the projections the
    recording had on entry, the average-reference projection made from
    the recording's metadata, and the projections the last reducer call
    of the run returned. *)
Theorem assembly_order_existing_then_avg_ref_then_artifact
    mode tmin tmax n_grad n_mag n_eeg l_freq h_freq average filter_length
    n_jobs ch_name reject bads event_id w p ev w' :
  _compute_exg_proj C mode tmin tmax n_grad n_mag n_eeg l_freq h_freq average
    filter_length n_jobs ch_name reject bads true false event_id w
  = (inr (p, ev), w') →
  ∃ new ev_projs,
    added w w' new ∧
    last new ≫= reducer_output C = Some ev_projs ∧
    list_at w' p =
      (rec_projs (recording w) ++
       [make_eeg_average_ref_proj C (info (raw w))] ++ ev_projs)%list.
Proof.
  intros H. pose proof (success_preloaded _ _ _ _ _ _ _ _ _ _ _ _ _ _ _ _ _ _ _ _ H)
    as Hpre.
  apply pipeline_run in H; [|done].
  destruct H as (det & flt & red & Ha & _ & _ & _ & _ & _ & _ & _ & _ & _ &
                 _ & Hres).
  destruct Hres as (-> & _ & _ & _ & _ & _ & ev_projs & Hlast & Hlist).
  exists (det ++ flt ++ red)%list, ev_projs. split_and!; [done|..].
  - by apply last_calls.
  - rewrite Hlist. by rewrite <- app_assoc.
Qed.

(** C9. With [no_proj=False], a run that returns hands back the list
    object that is attached to the recording, before the call and after
    it; the projections appended during the run (the average-reference
    projection when [avg_ref] is set, then those the last reducer call
    returned) are therefore in the recording's own projection list after
    the call, which differs from what it was whenever anything was
    appended. *)
Theorem returned_list_is_the_recordings_own
    mode tmin tmax n_grad n_mag n_eeg l_freq h_freq average filter_length
    n_jobs ch_name reject bads avg_ref event_id w p ev w' :
  _compute_exg_proj C mode tmin tmax n_grad n_mag n_eeg l_freq h_freq average
    filter_length n_jobs ch_name reject bads avg_ref false event_id w
  = (inr (p, ev), w') →
  p = info_projs (info (raw w)) ∧
  p = info_projs (info (raw w')) ∧
  ∃ new ev_projs,
    added w w' new ∧
    last new ≫= reducer_output C = Some ev_projs ∧
    let appended :=
      ((if avg_ref then [make_eeg_average_ref_proj C (info (raw w))]
        else []) ++ ev_projs)%list in
    rec_projs (recording w') = (rec_projs (recording w) ++ appended)%list ∧
    (appended ≠ [] → rec_projs (recording w') ≠ rec_projs (recording w)).
Proof.
  intros H. pose proof (success_preloaded _ _ _ _ _ _ _ _ _ _ _ _ _ _ _ _ _ _ _ _ H)
    as Hpre.
  apply pipeline_run in H; [|done].
  destruct H as (det & flt & red & Ha & Hinfo & _ & _ & _ & _ & _ & _ & _ &
                 _ & _ & Hres).
  destruct Hres as (-> & _ & _ & _ & _ & _ & ev_projs & Hlast & Hlist).
  simpl in *.
  split_and!; [done|by rewrite Hinfo|].
  exists (det ++ flt ++ red)%list, ev_projs. split_and!; [done|..].
  - by apply last_calls.
  - simpl. rewrite Hinfo, Hlist. by rewrite <- app_assoc.
  - simpl. rewrite Hinfo, Hlist, <- app_assoc. intros Hne Heq.
    apply Hne. apply (app_inv_head (list_at w (info_projs (info (raw w))))).
    by rewrite app_nil_r.
Qed.

(** C6, as the code has it.  With [no_proj=True] the cardiac wrapper
    hands back a list object that did not exist before the call; it
    holds the average-reference projection first when [avg_ref] is set,
    and then exactly the projections the last reducer call returned, so
    with [avg_ref] at its default it holds those alone.  The recording's
    own projection list is another object and is left as it was. *)
Theorem ecg_without_existing_projections (a : kwargs) w p ev w' :
  no_proj a = true →
  is_Some (lists w !! info_projs (info (raw w))) →
  compute_proj_ecg C a w = (inr (p, ev), w') →
  lists w !! p = None ∧
  p ≠ info_projs (info (raw w')) ∧
  rec_projs (recording w') = rec_projs (recording w) ∧
  ∃ new ev_projs,
    added w w' new ∧
    last new ≫= reducer_output C = Some ev_projs ∧
    list_at w' p =
      ((if avg_ref a then [make_eeg_average_ref_proj C (info (raw w))]
        else []) ++ ev_projs)%list ∧
    (avg_ref a = false → list_at w' p = ev_projs).
Proof.
  intros Hno Hwf H. rewrite compute_proj_ecg_run, Hno in H.
  pose proof (success_preloaded _ _ _ _ _ _ _ _ _ _ _ _ _ _ _ _ _ _ _ _ H)
    as Hpre.
  apply pipeline_run in H; [|done].
  destruct H as (det & flt & red & Ha & Hinfo & _ & Hframe & _ & _ & _ & _ &
                 _ & _ & _ & Hres).
  destruct Hres as (-> & _ & _ & _ & _ & _ & ev_projs & Hlast & Hlist).
  simpl in Hframe, Hlist.
  assert (lists w !! fresh (dom (lists w)) = None) as Hfresh.
  { apply not_elem_of_dom. apply is_fresh. }
  assert (info_projs (info (raw w)) ≠ fresh (dom (lists w))) as Hne.
  { intros Heq. rewrite Heq, Hfresh in Hwf. by destruct Hwf. }
  split_and!; [done|by rewrite Hinfo| |].
  - simpl. rewrite Hinfo. apply list_at_same. by apply Hframe.
  - exists (det ++ flt ++ red)%list, ev_projs. split_and!; [done|..].
    + by apply last_calls.
    + done.
    + intros Havg. by rewrite Hlist, Havg.
Qed.


Lemma dict_at_set_raw (r : Raw D) w d : dict_at (set_raw r w) d = dict_at w d.
Proof. reflexivity. Qed.

(** Once a run has returned, the keys of the categories its recording
    lacked are gone from the dict it was given; a later run that is
    given the same dict object, on a recording that lacks one of those
    categories, gets no further than the pruning block. *)
Lemma second_run_stops_at_pruning
    mode tmin tmax n_grad n_mag n_eeg l_freq h_freq average filter_length
    n_jobs ch_name bads avg_ref no_proj event_id
    mode' tmin' tmax' n_grad' n_mag' n_eeg' l_freq' h_freq' average'
    filter_length' n_jobs' ch_name' bads' avg_ref' no_proj' event_id'
    reject (r2 : Raw D) w x w1 k :
  _compute_exg_proj C mode tmin tmax n_grad n_mag n_eeg l_freq h_freq average
    filter_length n_jobs ch_name reject bads avg_ref no_proj event_id w
  = (inr x, w1) →
  category_empty C (info (raw w)) k = true →
  _preloaded r2 = true →
  category_empty C (info r2) k = true →
  (∀ c, detector_exn C c = None) →
  dict_at w1 reject !! k = None ∧
  ∃ k' w2 det,
    _compute_exg_proj C mode' tmin' tmax' n_grad' n_mag' n_eeg' l_freq'
      h_freq' average' filter_length' n_jobs' ch_name' reject bads' avg_ref'
      no_proj' event_id' (set_raw r2 w1)
    = (inl (KeyError k'), w2) ∧
    category_empty C (info r2) k' = true ∧
    added (set_raw r2 w1) w2 det ∧
    Forall (λ c, is_detector_call c = true) det ∧
    data (raw w2) = data r2.
Proof.
  intros H1 Hk Hpre2 Hk2 Hdet.
  pose proof (success_preloaded _ _ _ _ _ _ _ _ _ _ _ _ _ _ _ _ _ _ _ _ H1)
    as Hpre.
  apply pipeline_run in H1; [|done].
  destruct H1 as (det1 & flt1 & red1 & _ & _ & _ & _ & _ & _ & _ & _ & _ &
                  _ & _ & Hres).
  destruct x as [p ev]. destruct Hres as (_ & _ & _ & Hpr & _).
  assert (dict_at w1 reject !! k = None) as Hgone.
  { rewrite Hpr, prune_absent_lookup. by rewrite Hk. }
  split; [done|].
  destruct (_compute_exg_proj C mode' tmin' tmax' n_grad' n_mag' n_eeg'
      l_freq' h_freq' average' filter_length' n_jobs' ch_name' reject bads'
      avg_ref' no_proj' event_id' (set_raw r2 w1)) as [r w2] eqn:H2.
  apply pipeline_run in H2; [|done]. simpl in H2.
  destruct H2 as (det & flt & red & Ha & _ & _ & _ & _ & Hd & _ & _ & _ &
                  Hdata & _ & Hres).
  assert (¬ ∀ k0, k0 ∈ absent_keys C (info r2) →
            is_Some (dict_at (set_raw r2 w1) reject !! k0)) as Hno.
  { intros Hall. apply elem_of_absent_keys in Hk2.
    specialize (Hall k Hk2). rewrite dict_at_set_raw, Hgone in Hall.
    by destruct Hall. }
  destruct r as [e|[p' ev']].
  2:{ destruct Hres as (_ & _ & _ & _ & Hall & _). by destruct Hno. }
  destruct Hres as (_ & [Hstop|[Hstop|Hstop]]).
  - destruct Hstop as (_ & _ & _ & c & _ & Hc). by rewrite Hdet in Hc.
  - destruct Hstop as (-> & -> & k' & Hk' & ->).
    exists k', w2, det. rewrite !app_nil_r in Ha.
    split_and!; try done.
    + by apply elem_of_absent_keys.
    + eapply Forall_impl; [exact Hd|]. by intros c [? _].
    + by apply Hdata.
  - destruct Hstop as (_ & Hall). by destruct Hno.
Qed.

(** C10. The [reject] default of a wrapper is one dict object, and the
    pruning block deletes keys from it.  So when a call that passes only
    the recording has returned, on a recording that lacks a category,
    that category's key is gone from the default dict; and the next such
    call, on a recording that lacks that category too, raises [KeyError]
    in the pruning block, having called the detector and nothing else.
    (The detector is taken not to raise.) *)
Theorem default_reject_dict_is_shared_between_calls
    (ocular : bool) (r2 : Raw D) w x w1 k :
  default_call C ocular w = (inr x, w1) →
  category_empty C (info (raw w)) k = true →
  _preloaded r2 = true →
  category_empty C (info r2) k = true →
  (∀ c, detector_exn C c = None) →
  dict_at w1 (default_reject ocular) !! k = None ∧
  ∃ k' w2 det,
    default_call C ocular (set_raw r2 w1) = (inl (KeyError k'), w2) ∧
    category_empty C (info r2) k' = true ∧
    added (set_raw r2 w1) w2 det ∧
    Forall (λ c, is_detector_call c = true) det ∧
    data (raw w2) = data r2.
Proof.
  destruct ocular; simpl; intros H1 Hk Hpre2 Hk2 Hdet.
  - rewrite compute_proj_eog_run in H1.
    setoid_rewrite compute_proj_eog_run.
    eapply second_run_stops_at_pruning; eauto.
  - rewrite compute_proj_ecg_run in H1.
    setoid_rewrite compute_proj_ecg_run.
    eapply second_run_stops_at_pruning; eauto.
Qed.

End Claims.

(** * Runs on the test bench *)

(** Witness of C8: the recording opened without [preload]. *)
Lemma not_preloaded_witness :
  let w := set_raw (bench_raw_lazy all_channels) (bench_world all_channels) in
  let err := ValueError
    "raw needs to be preloaded, use preload=True in constructor" in
  _preloaded (raw w) = false ∧
  compute_proj_ecg bench_collaborators ecg_defaults w = (inl err, w) ∧
  compute_proj_eog bench_collaborators eog_defaults w = (inl err, w).
Proof.
  intros w err. split; [reflexivity|].
  pose proof (not_preloaded_raises_before_any_mutation bench_collaborators
    "ECG" f_m0_2 f_0_4 2 2 2 None None false 2048 1 None ecg_reject_default
    [] false true 999) as H.
  split.
  - exact (proj1 (proj2 (H ecg_defaults w eq_refl))).
  - exact (proj2 (proj2 (H eog_defaults w eq_refl))).
Defined.

(** C1 on the bench: mode ['EMG'] on a preloaded recording, with the
    default filter band.  No [ValueError] is raised: the detector is
    skipped, the rejection dict is pruned, the band-pass filter rewrites
    the signal, and the run ends in [UnboundLocalError] when line 133
    reads [events]. *)
Theorem invalid_mode_is_not_rejected :
  let w := bench_world all_channels in
  let res := _compute_exg_proj bench_collaborators "EMG" f_m0_2 f_0_4 2 2 2
               (Some f_1_0) (Some f_35_0) false 2048 1 None
               ecg_reject_default [] false true 999 w in
  res.1 = inl (UnboundLocalError "events") ∧
  data (raw w) = [3; 5; 8] ∧
  data (raw res.2) = [6; 10; 16] ∧
  trace res.2 =
    [call_band_pass_filter [0; 1; 2; 3]%nat (Some f_1_0) (Some f_35_0)
       2048 1].
Proof. vm_compute. done. Qed.

(** Counterexample to C2: a default call of the cardiac wrapper.  The
    first call of the run is the detector's, on the signal [3; 5; 8]; the
    band-pass call comes second and leaves [6; 10; 16]. *)
Lemma detector_runs_before_the_filter :
  let w' := (compute_proj_ecg bench_collaborators ecg_defaults
               (bench_world all_channels)).2 in
  ¬ filtering_precedes_detection (trace w') ∧
  (∃ r, trace w' !! 0%nat = Some (call_find_ecg_events r None 999) ∧
        data (rec_raw r) = [3; 5; 8]) ∧
  trace w' !! 1%nat =
    Some (call_band_pass_filter [0; 1; 2; 3]%nat (Some f_1_0) (Some f_35_0)
            2048 1) ∧
  data (raw w') = [6; 10; 16].
Proof.
  intros w'.
  assert (∃ r, trace w' !! 0%nat = Some (call_find_ecg_events r None 999) ∧
               data (rec_raw r) = [3; 5; 8]) as Hdet.
  { eexists. split; vm_compute; reflexivity. }
  assert (trace w' !! 1%nat =
    Some (call_band_pass_filter [0; 1; 2; 3]%nat (Some f_1_0) (Some f_35_0)
            2048 1)) as Hflt by (vm_compute; reflexivity).
  split_and!; [|exact Hdet|exact Hflt|vm_compute; reflexivity].
  intros Hclaim. destruct Hdet as (r & Hr & _).
  specialize (Hclaim 0%nat 1%nat _ _ Hr Hflt eq_refl eq_refl). lia.
Qed.

(** Counterexample to C4: the caller lists the only gradiometer in
    [bads].  Counted without the excluded channels the recording has no
    gradiometer, yet the ['grad'] entry stays in the dict and is handed
    to the epoching call. *)
Lemma pruning_counts_excluded_channels :
  let a := with_bads ["MEG 0113"] ecg_defaults in
  let w := bench_world all_channels in
  let res := compute_proj_ecg bench_collaborators a w in
  (∃ x, res.1 = inr x) ∧
  pick_types bench_collaborators (info (raw w)) MegGrad false false
    (Some (info_bads (info (raw w)) ++ bads a)%list) = [] ∧
  dict_at res.2 (reject a) !! "grad" = Some f_2000e_13 ∧
  ∃ c rej, c ∈ trace res.2 ∧ call_reject c = Some rej ∧
           rej !! "grad" = Some f_2000e_13.
Proof.
  intros a w res. split_and!.
  - eexists. vm_compute. reflexivity.
  - vm_compute. reflexivity.
  - vm_compute. reflexivity.
  - assert (∃ c, trace res.2 !! 2%nat = Some c ∧
                 ∃ rej, call_reject c = Some rej ∧
                        rej !! "grad" = Some f_2000e_13) as (c & Hc & rej & ?).
    { eexists. split; [vm_compute; reflexivity|].
      eexists. split; [reflexivity|]. vm_compute. reflexivity. }
    exists c, rej. split; [|done]. by eapply list_elem_of_lookup_2.
Qed.

(** Witness of C4: a recording without gradiometers and the default
    cardiac dict. *)
Lemma pruning_witness :
  let w := bench_world no_grad_channels in
  (∀ k, k ∈ ["grad"; "mag"; "eeg"; "eog"] →
        is_Some (dict_at w ecg_reject_default !! k)) ∧
  ∃ w1, handle_rejection bench_collaborators ecg_reject_default w
          = (inr tt, w1) ∧
        dict_at w1 ecg_reject_default !! "grad" = None ∧
        dict_at w1 ecg_reject_default !! "eog" = Some f_250e_6.
Proof.
  intros w.
  assert (∀ k, k ∈ ["grad"; "mag"; "eeg"; "eog"] →
               is_Some (dict_at w ecg_reject_default !! k)) as Hkeys.
  { intros k Hk. rewrite !elem_of_cons in Hk.
    destruct Hk as [->|[->|[->|[->|Hk]]]];
      [eexists; vm_compute; reflexivity..|by apply elem_of_nil in Hk]. }
  split; [exact Hkeys|].
  destruct (pruning_follows_the_unexcluded_counts bench_collaborators
              "ECG" f_m0_2 f_0_4 2 2 2 (Some f_1_0) (Some f_35_0) false
              2048 1 None ecg_reject_default [] false true 999 w Hkeys)
    as ((w1 & Hrun & Hdict & _) & Hlook & _).
  exists w1. split; [exact Hrun|]. rewrite Hdict. split.
  - rewrite (Hlook "grad"). vm_compute. reflexivity.
  - rewrite (Hlook "eog"). vm_compute. reflexivity.
Defined.

(** Witness of C5: the cardiac pipeline with [avg_ref=True] and
    [no_proj=False] on the bench recording. *)
Lemma assembly_order_witness :
  let w := bench_world all_channels in
  let res := _compute_exg_proj bench_collaborators "ECG" f_m0_2 f_0_4 2 2 2
               (Some f_1_0) (Some f_35_0) false 2048 1 None
               ecg_reject_default [] true false 999 w in
  res = (inr (10%positive, [(3, 999); (5, 999); (8, 999)]), res.2) ∧
  ∃ new ev_projs,
    added w res.2 new ∧
    last new ≫= reducer_output bench_collaborators = Some ev_projs ∧
    list_at res.2 10%positive =
      (["old-1"; "old-2"] ++ ["average-eeg-ref"] ++ ev_projs)%list.
Proof.
  intros w res.
  assert (res = (inr (10%positive, [(3, 999); (5, 999); (8, 999)]), res.2))
    as Hrun by (vm_compute; reflexivity).
  split; [exact Hrun|].
  exact (assembly_order_existing_then_avg_ref_then_artifact
           bench_collaborators "ECG" f_m0_2 f_0_4 2 2 2 (Some f_1_0)
           (Some f_35_0) false 2048 1 None ecg_reject_default [] 999 w
           10%positive [(3, 999); (5, 999); (8, 999)] res.2 Hrun).
Defined.

(** The list that run returns, entry by entry. *)
Example assembly_order_on_the_bench :
  let res := _compute_exg_proj bench_collaborators "ECG" f_m0_2 f_0_4 2 2 2
               (Some f_1_0) (Some f_35_0) false 2048 1 None
               ecg_reject_default [] true false 999
               (bench_world all_channels) in
  list_at res.2 10%positive =
    ["old-1"; "old-2"; "average-eeg-ref"; "ssp-epochs-1"; "ssp-epochs-2"].
Proof. vm_compute. reflexivity. Qed.

(** Witness of C9: the cardiac pipeline with [no_proj=False]. *)
Lemma returned_list_witness :
  let w := bench_world all_channels in
  let res := _compute_exg_proj bench_collaborators "ECG" f_m0_2 f_0_4 2 2 2
               (Some f_1_0) (Some f_35_0) false 2048 1 None
               ecg_reject_default [] false false 999 w in
  res = (inr (10%positive, [(3, 999); (5, 999); (8, 999)]), res.2) ∧
  10%positive = info_projs (info (raw res.2)) ∧
  ∃ new ev_projs,
    added w res.2 new ∧
    last new ≫= reducer_output bench_collaborators = Some ev_projs ∧
    rec_projs (recording res.2) = (rec_projs (recording w) ++ ev_projs)%list ∧
    (ev_projs ≠ [] → rec_projs (recording res.2) ≠ rec_projs (recording w)).
Proof.
  intros w res.
  assert (res = (inr (10%positive, [(3, 999); (5, 999); (8, 999)]), res.2))
    as Hrun by (vm_compute; reflexivity).
  split; [exact Hrun|].
  exact (proj2 (returned_list_is_the_recordings_own
           bench_collaborators "ECG" f_m0_2 f_0_4 2 2 2 (Some f_1_0)
           (Some f_35_0) false 2048 1 None ecg_reject_default [] false 999 w
           10%positive [(3, 999); (5, 999); (8, 999)] res.2 Hrun)).
Defined.

(** The recording's projection list before and after that run. *)
Example recordings_list_grows_on_the_bench :
  let w := bench_world all_channels in
  let res := _compute_exg_proj bench_collaborators "ECG" f_m0_2 f_0_4 2 2 2
               (Some f_1_0) (Some f_35_0) false 2048 1 None
               ecg_reject_default [] false false 999 w in
  rec_projs (recording w) = ["old-1"; "old-2"] ∧
  rec_projs (recording res.2) =
    ["old-1"; "old-2"; "ssp-epochs-1"; "ssp-epochs-2"].
Proof. vm_compute. done. Qed.

(** Counterexample to C6: the cardiac wrapper with [no_proj] left at its
    default and [avg_ref=True].  The list it returns starts with the
    average-reference projection, not with the projections the reducer
    returned. *)
Lemma avg_ref_comes_before_the_artifact_projections :
  let a := with_avg_ref true ecg_defaults in
  let res := compute_proj_ecg bench_collaborators a
               (bench_world all_channels) in
  no_proj a = true ∧
  ∃ p ev, res.1 = inr (p, ev) ∧
    last (trace res.2) ≫= reducer_output bench_collaborators
      = Some ["ssp-epochs-1"; "ssp-epochs-2"] ∧
    list_at res.2 p = ["average-eeg-ref"; "ssp-epochs-1"; "ssp-epochs-2"] ∧
    ¬ (["ssp-epochs-1"; "ssp-epochs-2"] `prefix_of` list_at res.2 p).
Proof.
  intros a res. split; [reflexivity|].
  exists 11%positive, [(3, 999); (5, 999); (8, 999)].
  assert (list_at res.2 11%positive =
            ["average-eeg-ref"; "ssp-epochs-1"; "ssp-epochs-2"]) as Hl
    by (vm_compute; reflexivity).
  split_and!; [vm_compute; reflexivity..|exact Hl|].
  rewrite Hl. intros [k Hk]. discriminate Hk.
Qed.

(** Witness of C6: a default call of the cardiac wrapper. *)
Lemma ecg_without_existing_projections_witness :
  let w := bench_world all_channels in
  let res := compute_proj_ecg bench_collaborators ecg_defaults w in
  no_proj ecg_defaults = true ∧
  is_Some (lists w !! info_projs (info (raw w))) ∧
  res = (inr (11%positive, [(3, 999); (5, 999); (8, 999)]), res.2) ∧
  lists w !! 11%positive = None ∧
  rec_projs (recording res.2) = rec_projs (recording w) ∧
  ∃ new ev_projs,
    added w res.2 new ∧
    last new ≫= reducer_output bench_collaborators = Some ev_projs ∧
    list_at res.2 11%positive = ev_projs.
Proof.
  intros w res.
  assert (is_Some (lists w !! info_projs (info (raw w)))) as Hwf
    by (eexists; vm_compute; reflexivity).
  assert (res = (inr (11%positive, [(3, 999); (5, 999); (8, 999)]), res.2))
    as Hrun by (vm_compute; reflexivity).
  split_and!; [reflexivity|exact Hwf|exact Hrun|..];
    destruct (ecg_without_existing_projections bench_collaborators
                ecg_defaults w 11%positive [(3, 999); (5, 999); (8, 999)]
                res.2 eq_refl Hwf Hrun)
      as (Hnew & _ & Hrec & new & ev_projs & Ha & Hlast & _ & Hlist).
  - exact Hnew.
  - exact Hrec.
  - exists new, ev_projs. split_and!; [exact Ha|exact Hlast|].
    exact (Hlist eq_refl).
Defined.

(** Witness of C10: two default calls of the cardiac wrapper on a
    recording made without gradiometers.  The first returns; the second
    raises [KeyError] for a category the recording lacks. *)
Lemma default_reject_dict_witness :
  let w := bench_world no_grad_channels in
  let res := default_call bench_collaborators false w in
  res = (inr (11%positive, [(3, 999); (5, 999); (8, 999)]), res.2) ∧
  category_empty bench_collaborators (info (raw w)) "grad" = true ∧
  dict_at res.2 ecg_reject_default !! "grad" = None ∧
  ∃ k' w2 det,
    default_call bench_collaborators false
      (set_raw (bench_raw no_grad_channels) res.2)
    = (inl (KeyError k'), w2) ∧
    category_empty bench_collaborators (info (bench_raw no_grad_channels)) k'
    = true ∧
    added (set_raw (bench_raw no_grad_channels) res.2) w2 det ∧
    Forall (λ c, is_detector_call c = true) det ∧
    data (raw w2) = data (bench_raw no_grad_channels).
Proof.
  intros w res.
  assert (res = (inr (11%positive, [(3, 999); (5, 999); (8, 999)]), res.2))
    as Hrun by (vm_compute; reflexivity).
  assert (∀ c, detector_exn bench_collaborators c = None) as Hdet
    by (intros []; reflexivity).
  split_and!; [exact Hrun|reflexivity|..];
    destruct (default_reject_dict_is_shared_between_calls bench_collaborators
                false (bench_raw no_grad_channels) w
                (11%positive, [(3, 999); (5, 999); (8, 999)]) res.2 "grad"
                Hrun eq_refl eq_refl eq_refl Hdet) as [Hgone Hsecond].
  - exact Hgone.
  - exact Hsecond.
Defined.

(** What the second call raises there, for either wrapper. *)
Example second_default_call_on_the_bench :
  let w := bench_world no_grad_channels in
  (default_call bench_collaborators false
     (default_call bench_collaborators false w).2).1
  = inl (KeyError "grad") ∧
  (default_call bench_collaborators true
     (default_call bench_collaborators true w).2).1
  = inl (KeyError "grad").
Proof. vm_compute. done. Qed.

(** * More on the pipeline *)

Section Steps.
Context {D : Domain}.
Implicit Types (w : World D) (d p : loc) (k : string) (c : Call D).

(** ** Steps compose *)

Lemma step_ok_refl (P : Call D → Prop) w : step_ok P w w.
Proof.
  split_and!; try done. exists []. unfold added.
  by rewrite app_nil_r.
Qed.

Lemma step_ok_trans (P : Call D → Prop) w1 w2 w3 :
  step_ok P w1 w2 → step_ok P w2 w3 → step_ok P w1 w3.
Proof.
  intros (Hi1 & Hp1 & Hd1 & xs & Ha1 & Hx1) (Hi2 & Hp2 & Hd2 & ys & Ha2 & Hx2).
  split_and!.
  - by rewrite Hi2.
  - by rewrite Hp2.
  - intros d. etrans; [apply Hd2|apply Hd1].
  - exists (xs ++ ys)%list. split.
    + unfold added in *. by rewrite Ha2, Ha1, app_assoc.
    + by apply Forall_app.
Qed.

Lemma obeys_ret {A} (P : Call D → Prop) (a : A) (Q : A → Prop) :
  Q a → obeys P (mret a) Q.
Proof.
  intros Ha w. split; [apply step_ok_refl|].
  intros a' H. unfold mret, M_ret in H. simpl in H. by simplify_eq.
Qed.

Lemma obeys_raise {A} (P : Call D → Prop) (e : exn) (Q : A → Prop) :
  obeys P (raise e) Q.
Proof. intros w. split; [apply step_ok_refl|]. intros a H. done. Qed.

Lemma obeys_bind {A B} (P : Call D → Prop) (m : M D A) (f : A → M D B)
    (Q1 : A → Prop) (Q : B → Prop) :
  obeys P m Q1 → (∀ a, Q1 a → obeys P (f a) Q) → obeys P (m ≫= f) Q.
Proof.
  intros Hm Hf w. destruct (Hm w) as [Hstep Hq].
  unfold mbind, M_bind. destruct (m w) as [[e|a] w1]; simpl in *.
  - split; [done|]. intros b H. done.
  - destruct (Hf a (Hq a eq_refl) w1) as [Hstep' Hq'].
    split; [by eapply step_ok_trans|done].
Qed.

Lemma obeys_get_bind {A} (P : Call D → Prop) (f : World D → M D A)
    (Q : A → Prop) :
  (∀ w0, obeys P (f w0) Q) → obeys P (get ≫= f) Q.
Proof. intros Hf w. apply (Hf w w). Qed.

Lemma obeys_weaken {A} (P : Call D → Prop) (m : M D A) (Q Q' : A → Prop) :
  obeys P m Q → (∀ a, Q a → Q' a) → obeys P m Q'.
Proof.
  intros Hm HQ w. destruct (Hm w) as [? Hq]. split; [done|].
  intros a Ha. by apply HQ, Hq.
Qed.

Lemma obeys_when (P : Call D → Prop) (b : bool) (m : M D unit) :
  obeys P m (λ _, True) → obeys P (when b m) (λ _, True).
Proof. destruct b; [done|]. intros _. by apply obeys_ret. Qed.

(** ** The primitive statements are steps *)

Lemma obeys_lists (P : Call D → Prop)
    (g : World D → gmap loc (list (Proj D)) → gmap loc (list (Proj D))) :
  obeys P (modify (λ w, set_lists (g w) w)) (λ _, True).
Proof.
  intros w. split; [|done]. simpl. split_and!; try done.
  exists []. unfold added. simpl. by rewrite app_nil_r.
Qed.

Lemma obeys_new_list (P : Call D → Prop) :
  obeys P (new_list (D:=D)) (λ _, True).
Proof.
  intros w. split; [|done]. simpl. split_and!; try done.
  exists []. unfold added. simpl. by rewrite app_nil_r.
Qed.

Lemma obeys_del_item (P : Call D → Prop) d k :
  obeys P (del_item (D:=D) d k) (λ _, True).
Proof.
  intros w. split; [|done]. unfold del_item.
  destruct (dict_at w d !! k) as [x|] eqn:Hk; simpl; [|apply step_ok_refl].
  split_and!; try done.
  - intros d'. unfold dict_at. simpl.
    destruct (decide (d' = d)) as [->|Hne].
    + rewrite lookup_total_insert_eq. apply delete_subseteq.
    + by rewrite lookup_total_insert_ne.
  - exists []. unfold added. simpl. by rewrite app_nil_r.
Qed.

Lemma obeys_invoke {A} (P : Call D → Prop) c (r : Result A) (Q : A → Prop) :
  P c → (∀ a, r = inr a → Q a) → obeys P (invoke c r) Q.
Proof.
  intros Hc Hr w. unfold invoke, mbind, M_bind, modify, lift. simpl.
  split; [|done]. split_and!; try done.
  exists [c]. split; [done|]. by constructor.
Qed.

Lemma obeys_set_data (P : Call D → Prop) (s : Signal D) :
  obeys P (modify (set_data s)) (λ _, True).
Proof.
  intros w. split; [|done]. simpl. split_and!; try done.
  exists []. unfold added. simpl. by rewrite app_nil_r.
Qed.

Lemma obeys_read_local {A} (P : Call D → Prop) var (v : option A) :
  obeys P (read_local var v) (λ a, v = Some a).
Proof.
  destruct v as [a|]; simpl; [|apply obeys_raise].
  by apply obeys_ret.
Qed.

End Steps.

Section Discipline.
Context {D : Domain} (C : Collaborators D).
Implicit Types (w : World D) (d p : loc) (k : string) (c : Call D).

(** ** The blocks are steps *)

Section Blocks.
Variables (mode : string) (tmin tmax : float) (n_grad n_mag n_eeg : Z)
  (average : bool) (ch_name : option string) (event_id : Z)
  (picks : list nat).

Let P : Call D → Prop :=
  pipeline_call mode tmin tmax n_grad n_mag n_eeg average ch_name event_id
    picks.

Lemma start_projs_obeys no_proj :
  obeys P (start_projs no_proj) (λ _, True).
Proof.
  destruct no_proj; simpl; [apply obeys_new_list|].
  apply obeys_get_bind. intros w0. by apply obeys_ret.
Qed.

Lemma add_avg_ref_obeys avg_ref p :
  obeys P (add_avg_ref C avg_ref p) (λ _, True).
Proof.
  apply obeys_when, obeys_get_bind. intros w0.
  apply (obeys_lists P (λ w, <[p := _]>)).
Qed.

Lemma detect_events_obeys :
  obeys P (detect_events C mode ch_name event_id)
    (λ events, is_Some events → mode = "ECG" ∨ mode = "EOG").
Proof.
  unfold detect_events.
  destruct (String.eqb_spec mode "ECG") as [Hecg|Hecg];
    [|destruct (String.eqb_spec mode "EOG") as [Heog|Heog]].
  - apply obeys_get_bind. intros w0.
    eapply obeys_bind.
    + apply (obeys_invoke P _ _ (λ _, True)); [|done].
      unfold P, pipeline_call. simpl. auto.
    + intros [[ev a1] a2] _. apply obeys_ret. auto.
  - apply obeys_get_bind. intros w0.
    eapply obeys_bind.
    + apply (obeys_invoke P _ _ (λ _, True)); [|done].
      unfold P, pipeline_call. simpl. auto.
    + intros ev _. apply obeys_ret. auto.
  - eapply obeys_bind; [by apply (obeys_ret P tt (λ _, True))|].
    intros _ _. apply obeys_ret. intros [x Hx]. done.
Qed.

Lemma handle_rejection_obeys reject :
  obeys P (handle_rejection C reject) (λ _, True).
Proof.
  apply obeys_get_bind. intros w0.
  repeat (eapply obeys_bind;
          [apply obeys_when, obeys_del_item|intros _ _]).
  apply obeys_when, obeys_del_item.
Qed.

Lemma run_filter_obeys c (f : Raw D → Result (Signal D)) :
  P c → obeys P (run_filter c f) (λ _, True).
Proof.
  intros Hc. apply obeys_get_bind. intros w0.
  eapply obeys_bind; [by apply (obeys_invoke P _ _ (λ _, True))|].
  intros s _. apply obeys_set_data.
Qed.

Lemma filter_raw_obeys l_freq h_freq filter_length n_jobs :
  obeys P (filter_raw C picks l_freq h_freq filter_length n_jobs)
    (λ _, True).
Proof.
  unfold filter_raw.
  repeat (eapply obeys_bind;
          [apply obeys_when, run_filter_obeys;
           unfold P, pipeline_call; simpl; split_and!; try done;
           by intros [?|?]
          |intros _ _]).
  apply obeys_when, run_filter_obeys.
  unfold P, pipeline_call; simpl; split_and!; try done. by intros [?|?].
Qed.

Lemma reduce_epochs_obeys events reject :
  (is_Some events → mode = "ECG" ∨ mode = "EOG") →
  obeys P (reduce_epochs C events tmin tmax picks reject average
             n_grad n_mag n_eeg) (λ _, True).
Proof.
  intros Hev. apply obeys_get_bind. intros w0.
  eapply obeys_bind; [apply obeys_read_local|]. intros ev ->.
  specialize (Hev (mk_is_Some _ _ eq_refl)).
  eapply obeys_bind.
  { apply (obeys_invoke P _ _ (λ _, True)); [|done].
    unfold P, pipeline_call. simpl. auto. }
  intros epochs _. destruct average eqn:Havg.
  - eapply obeys_bind.
    { apply (obeys_invoke P _ _ (λ _, True)); [|done].
      unfold P, pipeline_call. simpl. rewrite ?Havg. split_and!; auto. }
    intros evoked _. apply obeys_invoke; [|done].
    unfold P, pipeline_call. simpl. rewrite ?Havg. split_and!; auto.
  - apply obeys_invoke; [|done].
    unfold P, pipeline_call. simpl. rewrite ?Havg. split_and!; auto.
Qed.

End Blocks.


(** Every run of the pipeline is a step whose calls carry the arguments of
    the run; it returns only for the two modes. *)
Lemma pipeline_obeys mode tmin tmax n_grad n_mag n_eeg l_freq h_freq average
    filter_length n_jobs ch_name reject bads avg_ref no_proj event_id w :
  let run := _compute_exg_proj C mode tmin tmax n_grad n_mag n_eeg l_freq
               h_freq average filter_length n_jobs ch_name reject bads
               avg_ref no_proj event_id w in
  let picks := pick_types C (info (raw w)) MegTrue true true
                 (Some (info_bads (info (raw w)) ++ bads)%list) in
  step_ok (pipeline_call mode tmin tmax n_grad n_mag n_eeg average ch_name
             event_id picks) w run.2 ∧
  (∀ x, run.1 = inr x → mode = "ECG" ∨ mode = "EOG").
Proof.
  intros run picks. subst run. unfold _compute_exg_proj.
  rewrite get_bind. fold picks.
  set (P := pipeline_call mode tmin tmax n_grad n_mag n_eeg average ch_name
              event_id picks).
  destruct (_preloaded (raw w)); simpl.
  2:{ split; [apply step_ok_refl|done]. }
  revert w picks P. intros w0 picks P.
  apply (obeys_bind P _ _ (λ _, True)); [apply start_projs_obeys|].
  intros projs _.
  apply (obeys_bind P _ _ (λ _, True)); [apply add_avg_ref_obeys|].
  intros _ _.
  eapply obeys_bind; [apply detect_events_obeys|].
  intros events Hev.
  apply (obeys_bind P _ _ (λ _, True)); [apply handle_rejection_obeys|].
  intros _ _.
  apply (obeys_bind P _ _ (λ _, True)); [apply filter_raw_obeys|].
  intros _ _.
  apply (obeys_bind P _ _ (λ _, True)); [by apply reduce_epochs_obeys|].
  intros ev_projs _.
  apply (obeys_bind P _ _ (λ _, True));
    [apply (obeys_lists P (λ w, <[projs := _]>))|].
  intros _ _.
  eapply obeys_bind; [apply obeys_read_local|].
  intros ev ->. apply obeys_ret. apply Hev. by eexists.
Qed.


Lemma first_call_is_the_detector
    mode tmin tmax n_grad n_mag n_eeg l_freq h_freq average filter_length
    n_jobs ch_name reject bads avg_ref no_proj event_id w :
  _preloaded (raw w) = true → mode = "ECG" ∨ mode = "EOG" →
  ∃ new, added w (_compute_exg_proj C mode tmin tmax n_grad n_mag n_eeg
                    l_freq h_freq average filter_length n_jobs ch_name
                    reject bads avg_ref no_proj event_id w).2 new ∧
    ∃ c, head new = Some c ∧ is_detector_call c = true.
Proof.
  intros Hpre Hmode.
  destruct (pipeline_calls C mode tmin tmax n_grad n_mag n_eeg l_freq h_freq
              average filter_length n_jobs ch_name reject bads avg_ref
              no_proj event_id w)
    as (det & flt & red & Ha & Hdet & Hne & _).
  exists (det ++ flt ++ red)%list. split; [done|].
  specialize (Hne Hpre Hmode). destruct det as [|c det]; [done|].
  exists c. split; [done|]. by apply Forall_cons in Hdet as [[? _] _].
Qed.

(** ** What the calls of a run carry *)


(** X2.  The cardiac wrapper calls [find_ecg_events], with the [ch_name] and
    [event_id] it was given, and never [find_eog_events]; the ocular
    wrapper calls [find_eog_events], with its [event_id], and never
    [find_ecg_events].  On a preloaded recording that detector call is made
    before every filter call, epoching call, averaging call and reducer
    call of the run: it heads the calls the run records. *)
Theorem wrappers_call_their_own_detector (a : kwargs) w :
  (∃ new, added w (compute_proj_ecg C a w).2 new ∧
     (∀ r ch id, call_find_ecg_events r ch id ∈ new →
        ch = ch_name a ∧ id = event_id a) ∧
     (∀ r id, call_find_eog_events r id ∉ new) ∧
     (_preloaded (raw w) = true →
      ∃ r, head new = Some (call_find_ecg_events r (ch_name a) (event_id a))))
  ∧
  (∃ new, added w (compute_proj_eog C a w).2 new ∧
     (∀ r id, call_find_eog_events r id ∈ new → id = event_id a) ∧
     (∀ r ch id, call_find_ecg_events r ch id ∉ new) ∧
     (_preloaded (raw w) = true →
      ∃ r, head new = Some (call_find_eog_events r (event_id a)))).
Proof.
  split.
  - rewrite compute_proj_ecg_run.
    destruct (pipeline_obeys "ECG" (tmin a) (tmax a) (n_grad a) (n_mag a)
                (n_eeg a) (l_freq a) (h_freq a) (average a) (filter_length a)
                (n_jobs a) (ch_name a) (reject a) (bads a) (avg_ref a)
                (no_proj a) (event_id a) w)
      as [(_ & _ & _ & new & Ha & Hall) _].
    rewrite Forall_forall in Hall.
    exists new. split_and!; [done|..].
    + intros r ch id Hc. destruct (Hall _ Hc) as ((_ & ? & ?) & _). done.
    + intros r id Hc. destruct (Hall _ Hc) as ((? & _) & _). done.
    + intros Hpre.
      destruct (first_call_is_the_detector "ECG"
                  (tmin a) (tmax a) (n_grad a) (n_mag a)
                  (n_eeg a) (l_freq a) (h_freq a) (average a)
                  (filter_length a) (n_jobs a) (ch_name a) (reject a)
                  (bads a) (avg_ref a) (no_proj a) (event_id a) w Hpre)
        as (new' & Ha' & c & Hhead & Hdet); [by left|].
      unfold added in Ha, Ha'. rewrite Ha in Ha'.
      apply app_inv_head in Ha'. subst new'.
      assert (c ∈ new) as Hc by (destruct new; simplify_eq/=; set_solver).
      destruct (Hall _ Hc) as (Hd & _).
      destruct c; simpl in Hdet, Hd; try done.
      * destruct Hd as (_ & -> & ->). by eexists.
      * by destruct Hd.
  - rewrite compute_proj_eog_run.
    destruct (pipeline_obeys "EOG" (tmin a) (tmax a) (n_grad a) (n_mag a)
                (n_eeg a) (l_freq a) (h_freq a) (average a) (filter_length a)
                (n_jobs a) None (reject a) (bads a) (avg_ref a)
                (no_proj a) (event_id a) w)
      as [(_ & _ & _ & new & Ha & Hall) _].
    rewrite Forall_forall in Hall.
    exists new. split_and!; [done|..].
    + intros r id Hc. destruct (Hall _ Hc) as ((_ & ?) & _). done.
    + intros r ch id Hc. destruct (Hall _ Hc) as ((? & _) & _). done.
    + intros Hpre.
      destruct (first_call_is_the_detector "EOG"
                  (tmin a) (tmax a) (n_grad a) (n_mag a)
                  (n_eeg a) (l_freq a) (h_freq a) (average a)
                  (filter_length a) (n_jobs a) None (reject a)
                  (bads a) (avg_ref a) (no_proj a) (event_id a) w Hpre)
        as (new' & Ha' & c & Hhead & Hdet); [by right|].
      unfold added in Ha, Ha'. rewrite Ha in Ha'.
      apply app_inv_head in Ha'. subst new'.
      assert (c ∈ new) as Hc by (destruct new; simplify_eq/=; set_solver).
      destruct (Hall _ Hc) as (Hd & _).
      destruct c; simpl in Hdet, Hd; try done.
      * by destruct Hd.
      * destruct Hd as (_ & ->). by eexists.
Qed.


(** X3.  The filter call and the epoching call of a run are handed the same
    channel picks: those [pick_types] returns for the metadata the
    recording had on entry, with [raw.info['bads'] + bads] excluded.  The
    epoching call is handed [tmin] and [tmax] as the caller gave them. *)
Theorem filter_and_epochs_share_the_picks
    mode tmin tmax n_grad n_mag n_eeg l_freq h_freq average filter_length
    n_jobs ch_name reject bads avg_ref no_proj event_id w :
  let run := _compute_exg_proj C mode tmin tmax n_grad n_mag n_eeg l_freq
               h_freq average filter_length n_jobs ch_name reject bads
               avg_ref no_proj event_id w in
  let picks := pick_types C (info (raw w)) MegTrue true true
                 (Some (info_bads (info (raw w)) ++ bads)%list) in
  ∃ new, added w run.2 new ∧
    (∀ pk f fl nj, call_high_pass_filter pk f fl nj ∈ new → pk = picks) ∧
    (∀ pk f fl nj, call_low_pass_filter pk f fl nj ∈ new → pk = picks) ∧
    (∀ pk l h fl nj, call_band_pass_filter pk l h fl nj ∈ new →
       pk = picks) ∧
    (∀ r ev t1 t2 pk rej, call_Epochs r ev t1 t2 pk rej ∈ new →
       t1 = tmin ∧ t2 = tmax ∧ pk = picks) ∧
    (∀ x, run.1 = inr x →
       ∃ r ev rej, call_Epochs r ev tmin tmax picks rej ∈ new).
Proof.
  intros run picks.
  destruct (pipeline_obeys mode tmin tmax n_grad n_mag n_eeg l_freq h_freq
              average filter_length n_jobs ch_name reject bads avg_ref
              no_proj event_id w) as [(_ & _ & _ & new & Ha & Hall) _].
  fold run picks in Ha, Hall. rewrite Forall_forall in Hall.
  exists new. split_and!; [done|..].
  - intros pk f fl nj Hc. by destruct (Hall _ Hc) as (_ & Hw & _).
  - intros pk f fl nj Hc. by destruct (Hall _ Hc) as (_ & Hw & _).
  - intros pk l h fl nj Hc. by destruct (Hall _ Hc) as (_ & Hw & _).
  - intros r ev t1 t2 pk rej Hc. by destruct (Hall _ Hc) as (_ & Hw & _).
  - intros [p ev] Hx. destruct run as [r w'] eqn:Hrun. simpl in *. subst r.
    pose proof (success_preloaded C _ _ _ _ _ _ _ _ _ _ _ _ _ _ _ _ _ _ _ _
                  Hrun) as Hpre.
    apply pipeline_run in Hrun; [|done].
    destruct Hrun as (det & flt & red & Ha' & _ & _ & _ & _ & _ & _ & _ & _ &
                      _ & _ & Hres).
    destruct Hres as (_ & _ & _ & _ & _ & (c & Hc & Hrej) & _).
    unfold added in Ha, Ha'. rewrite Ha in Ha'.
    apply app_inv_head in Ha'. subst new.
    assert (c ∈ (det ++ flt ++ red)%list) as Hc' by set_solver.
    destruct c; simpl in Hrej; try done.
    destruct (Hall _ Hc') as (_ & (-> & -> & ->) & _). eauto.
Qed.


(** X5.  A run changes nothing but the signal, the dict it was given as
    [reject] and the list it collects the projections in.  The channel
    metadata and the preload flag stay; every other dict and every other
    list in the store stay; and a dict never gains an entry or sees one
    changed. *)
Theorem run_leaves_the_rest_of_the_store
    mode tmin tmax n_grad n_mag n_eeg l_freq h_freq average filter_length
    n_jobs ch_name reject bads avg_ref no_proj event_id w :
  let w' := (_compute_exg_proj C mode tmin tmax n_grad n_mag n_eeg l_freq
               h_freq average filter_length n_jobs ch_name reject bads
               avg_ref no_proj event_id w).2 in
  let projs := if no_proj then fresh (dom (lists w))
               else info_projs (info (raw w)) in
  info (raw w') = info (raw w) ∧
  _preloaded (raw w') = _preloaded (raw w) ∧
  (∀ d, d ≠ reject → dicts w' !! d = dicts w !! d) ∧
  (∀ k x, dict_at w' reject !! k = Some x → dict_at w reject !! k = Some x) ∧
  (∀ q, q ≠ projs → lists w' !! q = lists w !! q).
Proof.
  intros w' projs.
  destruct (pipeline_obeys mode tmin tmax n_grad n_mag n_eeg l_freq h_freq
              average filter_length n_jobs ch_name reject bads avg_ref
              no_proj event_id w) as [(Hi & Hp & Hd & _) _].
  fold w' in Hi, Hp, Hd.
  split_and!; [done|done|..].
  2:{ intros k x Hk. specialize (Hd reject).
      by eapply lookup_weaken. }
  all: destruct (_preloaded (raw w)) eqn:Hpre.
  all: try (subst w'; rewrite not_preloaded_run by done; done).
  all: destruct (_compute_exg_proj C mode tmin tmax n_grad n_mag n_eeg l_freq
               h_freq average filter_length n_jobs ch_name reject bads
               avg_ref no_proj event_id w) as [r w1] eqn:Hrun.
  all: apply pipeline_run in Hrun; [|done].
  all: destruct Hrun as (det & flt & red & _ & _ & _ & Hl & Hdd & _).
  all: subst w'; simpl; done.
Qed.


(** ** A run that returns, block by block *)

Lemma detect_events_success mode ch_name event_id w ev w' :
  detect_events C mode ch_name event_id w = (inr (Some ev), w') →
  ∃ c, w' = log c w ∧ is_detector_call c = true ∧
       call_recording c = Some (recording w) ∧
       detector_events C c = Some ev.
Proof.
  unfold detect_events.
  destruct (String.eqb mode "ECG"); [|destruct (String.eqb mode "EOG")].
  - unfold invoke, mbind, M_bind, get, modify, lift. simpl.
    destruct (find_ecg_events C _ _ _) as [e|[[ev' a1] a2]] eqn:He;
      unfold mret, M_ret; intros H; simplify_eq.
    eexists. split_and!; try done. simpl. by rewrite He.
  - unfold invoke, mbind, M_bind, get, modify, lift. simpl.
    destruct (find_eog_events C _ _) as [e|ev'] eqn:He;
      unfold mret, M_ret; intros H; simplify_eq.
    eexists. split_and!; try done. simpl. by rewrite He.
  - unfold discard, mbind, M_bind, mret, M_ret. intros H. simplify_eq.
Qed.

Lemma filter_raw_success picks l_freq h_freq filter_length n_jobs w u w' :
  filter_raw C picks l_freq h_freq filter_length n_jobs w = (inr u, w') →
  apply_selected_filter C (raw w) picks l_freq h_freq filter_length n_jobs
  = inr (data (raw w')).
Proof.
  unfold filter_raw, run_filter, invoke, apply_selected_filter.
  destruct l_freq as [l|], h_freq as [h|]; simpl;
    unfold mbind, M_bind, mret, M_ret, get, modify, lift; simpl.
  - destruct (band_pass_filter C _ _ _ _ _ _); intros H; by simplify_eq.
  - destruct (low_pass_filter C _ _ _ _ _); intros H; by simplify_eq.
  - destruct (high_pass_filter C _ _ _ _ _); intros H; by simplify_eq.
  - intros H; by simplify_eq.
Qed.

Lemma reduce_epochs_success ev tmin tmax picks reject average
    n_grad n_mag n_eeg w ps w' :
  reduce_epochs C (Some ev) tmin tmax picks reject average
    n_grad n_mag n_eeg w = (inr ps, w') →
  ∃ epochs rest,
    Epochs C (recording w) ev None tmin tmax None picks (dict_at w reject)
      true = inr epochs ∧
    reduce C average epochs n_grad n_mag n_eeg = inr ps ∧
    trace w' =
      (trace w ++
       call_Epochs (recording w) ev tmin tmax picks (dict_at w reject)
       :: rest)%list ∧
    rest = reduce_calls C average epochs n_grad n_mag n_eeg.
Proof.
  unfold reduce_epochs, invoke, read_local, reduce, reduce_calls. simpl.
  unfold mbind, M_bind, mret, M_ret, get, modify, lift, raise. simpl.
  intros H.
  destruct (Epochs C _ _ _ _ _ _ _ _ _) as [e|epochs] eqn:He;
    [simplify_eq|].
  exists epochs. destruct average.
  - destruct (epochs_average C epochs) as [e|evoked] eqn:Ha;
      [simplify_eq|].
    destruct (compute_proj_evoked C evoked n_grad n_mag n_eeg) as [e|ps']
      eqn:Hp; simplify_eq.
    exists [call_average epochs;
            call_compute_proj_evoked evoked n_grad n_mag n_eeg].
    split_and!; try done. simpl. by rewrite <- !app_assoc.
  - destruct (compute_proj_epochs C epochs n_grad n_mag n_eeg) as [e|ps']
      eqn:Hp; simplify_eq.
    exists [call_compute_proj_epochs epochs n_grad n_mag n_eeg].
    split_and!; try done. simpl. by rewrite <- !app_assoc.
Qed.

Lemma pipeline_success mode tmin tmax n_grad n_mag n_eeg l_freq h_freq
    average filter_length n_jobs ch_name reject bads avg_ref no_proj
    event_id w p ev w' :
  _compute_exg_proj C mode tmin tmax n_grad n_mag n_eeg l_freq h_freq average
    filter_length n_jobs ch_name reject bads avg_ref no_proj event_id w
  = (inr (p, ev), w') →
  let i := info (raw w) in
  let existing := list_at w (info_projs i) in
  let avg := if avg_ref then [make_eeg_average_ref_proj C i] else [] in
  let picks := pick_types C i MegTrue true true
                 (Some (info_bads i ++ bads)%list) in
  let sel := selected_filter picks l_freq h_freq filter_length n_jobs in
  let pruned := prune (absent_keys C i) (dict_at w reject) in
  ∃ cd seen epochs ev_projs rest,
    added w w'
      (cd :: sel ++
       call_Epochs {| rec_raw := raw w'; rec_projs := seen |} ev tmin tmax
         picks pruned :: rest) ∧
    is_detector_call cd = true ∧
    call_recording cd = Some {| rec_raw := raw w; rec_projs := seen |} ∧
    detector_events C cd = Some ev ∧
    apply_selected_filter C (raw w) picks l_freq h_freq filter_length n_jobs
    = inr (data (raw w')) ∧
    Epochs C {| rec_raw := raw w'; rec_projs := seen |} ev None tmin tmax
      None picks pruned true = inr epochs ∧
    reduce C average epochs n_grad n_mag n_eeg = inr ev_projs ∧
    list_at w' p =
      ((if no_proj then [] else existing) ++ avg ++ ev_projs)%list ∧
    (no_proj = false → seen = (existing ++ avg)%list) ∧
    (no_proj = true → is_Some (lists w !! info_projs i) → seen = existing) ∧
    rest = reduce_calls C average epochs n_grad n_mag n_eeg.
Proof.
  intros H i existing avg picks sel pruned.
  subst i existing avg picks sel pruned.
  pose proof (success_preloaded C _ _ _ _ _ _ _ _ _ _ _ _ _ _ _ _ _ _ _ _ H)
    as Hpre.
  unfold _compute_exg_proj in H. rewrite get_bind, Hpre in H. simpl in H.
  apply bind_inv in H as [(e & _ & ?)|(p0 & w1 & H1 & H)]; [done|].
  pose proof (start_projs_inv _ _ _ _ H1) as (Hp & Hr1 & Hd1 & Ht1 & Hl1 & Hf1).
  injection Hp as ->.
  apply bind_inv in H as [(e & _ & ?)|([] & w2 & H2 & H)]; [done|].
  apply (add_avg_ref_inv C) in H2 as (_ & Hr2 & Hd2 & Ht2 & Hl2 & Hf2).
  rewrite Hr1 in Hr2, Hl2. rewrite Hl1 in Hl2.
  apply bind_inv in H as [(e & _ & ?)|(events & w3 & H3 & H)]; [done|].
  apply bind_inv in H as [(e & _ & ?)|([] & w4 & H4 & H)]; [done|].
  apply bind_inv in H as [(e & _ & ?)|([] & w5 & H5 & H)]; [done|].
  apply bind_inv in H as [(e & _ & ?)|(ev_projs & w6 & H6 & H)]; [done|].
  unfold list_extend, modify, mbind, M_bind in H. simpl in H.
  destruct events as [ev'|]; simpl in H; [|done].
  unfold mret, M_ret in H. injection H as <- <- <-.
  apply detect_events_success in H3 as (cd & -> & Hcd & Hrcd & Hev).
  pose proof (handle_rejection_run C _ _ _ _ H4) as (Hr4 & Hl4 & Ht4 & _ & Hpr).
  destruct Hpr as (Hpr & _). simpl in Hr4, Hl4, Ht4, Hpr.
  pose proof (filter_raw_success _ _ _ _ _ _ _ _ H5) as Hsig.
  apply (filter_raw_run C) in H5 as (Hi5 & Hp5 & Hl5 & Hd5 & Ha5 & _).
  pose proof (reduce_epochs_run C _ _ _ _ _ _ _ _ _ _ _ _ H6)
    as (Hr6 & Hl6 & _).
  apply reduce_epochs_success in H6
    as (epochs & rest & Hep & Hred & Ht6 & Hrest).
  set (p0 := if no_proj then fresh (dom (lists w))
             else info_projs (info (raw w))) in *.
  assert (raw w4 = raw w) as Hraw4 by (by rewrite Hr4).
  assert (recording w5 =
            {| rec_raw := raw w5;
               rec_projs := list_at w2 (info_projs (info (raw w))) |})
    as Hrec5.
  { unfold recording. f_equal. rewrite Hi5, Hraw4.
    apply list_at_same. by rewrite Hl5, Hl4. }
  assert (dict_at w5 reject =
            prune (absent_keys C (info (raw w))) (dict_at w reject)) as Hdict5.
  { unfold dict_at at 1. rewrite Hd5. fold (dict_at w4 reject).
    rewrite Hpr, Hr2. f_equal. unfold dict_at. simpl. by rewrite Hd2, Hd1. }
  rewrite Hrec5, Hdict5 in Hep, Ht6. rewrite Hraw4 in Hsig.
  exists cd, (list_at w2 (info_projs (info (raw w)))), epochs, ev_projs, rest.
  simpl. rewrite Hr6. split_and!; try done.
  - unfold added. simpl. rewrite Ht6, Ha5, Ht4, Ht2, Ht1.
    by rewrite <- !app_assoc.
  - rewrite Hrcd. unfold recording. by rewrite Hr2.
  - rewrite list_at_insert. rewrite app_assoc. f_equal.
    rewrite <- Hl2. apply list_at_same. by rewrite Hl6, Hl5, Hl4.
  - intros Hno. subst p0. rewrite Hno in Hl2. done.
  - intros Hno Hwf. subst p0. rewrite Hno in Hf1, Hf2.
    assert (info_projs (info (raw w)) ≠ fresh (dom (lists w))) as Hne.
    { intros Heq. rewrite Heq in Hwf.
      pose proof (is_fresh (dom (lists w))) as Hfr.
      apply not_elem_of_dom in Hfr. rewrite Hfr in Hwf. by destruct Hwf. }
    apply list_at_same. rewrite Hf2, Hf1; done.
Qed.



(** ** What a run that returns has computed *)

(** X6.  After a run that returns, the recording holds the signal that the one
    selected filter returned when it was applied, on the picks, to the
    recording as it was on entry; with both bounds [None] it holds the
    signal it had. *)
Theorem returned_run_leaves_the_filtered_signal
    mode tmin tmax n_grad n_mag n_eeg l_freq h_freq average filter_length
    n_jobs ch_name reject bads avg_ref no_proj event_id w x w' :
  _compute_exg_proj C mode tmin tmax n_grad n_mag n_eeg l_freq h_freq average
    filter_length n_jobs ch_name reject bads avg_ref no_proj event_id w
  = (inr x, w') →
  let picks := pick_types C (info (raw w)) MegTrue true true
                 (Some (info_bads (info (raw w)) ++ bads)%list) in
  apply_selected_filter C (raw w) picks l_freq h_freq filter_length n_jobs
  = inr (data (raw w')) ∧
  (l_freq = None → h_freq = None → data (raw w') = data (raw w)).
Proof.
  intros H picks. destruct x as [p ev].
  apply pipeline_success in H
    as (cd & seen & epochs & ev_projs & rest & _ & _ & _ & _ & Hsig & _).
  split; [done|]. intros -> ->. simpl in Hsig. by simplify_eq.
Qed.

(** X7.  A run that returns hands back the events its detector call
    returned, as they are, and a list that ends with the projections
    computed, by the reducer that [average] selects, from the epochs the
    epoching call returned.  That call was made on the recording holding
    the signal the selected filter returned for the recording as it was
    on entry, with those events, [tmin], [tmax], the picks and the pruned
    dict.  The calls of the run to the detectors, the filters, the
    epoching, the averaging and the reducers are, in this order and with
    no other: the detector call, the selected filter call if there is
    one, the epoching call, and then [average()] followed by
    [compute_proj_evoked], or [compute_proj_epochs] alone. *)
Theorem returned_values_come_from_the_collaborators
    mode tmin tmax n_grad n_mag n_eeg l_freq h_freq average filter_length
    n_jobs ch_name reject bads avg_ref no_proj event_id w p ev w' :
  _compute_exg_proj C mode tmin tmax n_grad n_mag n_eeg l_freq h_freq average
    filter_length n_jobs ch_name reject bads avg_ref no_proj event_id w
  = (inr (p, ev), w') →
  let i := info (raw w) in
  let existing := rec_projs (recording w) in
  let avg := if avg_ref then [make_eeg_average_ref_proj C i] else [] in
  let picks := pick_types C i MegTrue true true
                 (Some (info_bads i ++ bads)%list) in
  let sel := selected_filter picks l_freq h_freq filter_length n_jobs in
  let pruned := prune (absent_keys C i) (dict_at w reject) in
  ∃ cd seen epochs ev_projs,
    added w w'
      (cd :: sel ++
       call_Epochs {| rec_raw := raw w'; rec_projs := seen |} ev tmin tmax
         picks pruned ::
       reduce_calls C average epochs n_grad n_mag n_eeg) ∧
    is_detector_call cd = true ∧
    call_recording cd = Some {| rec_raw := raw w; rec_projs := seen |} ∧
    detector_events C cd = Some ev ∧
    apply_selected_filter C (raw w) picks l_freq h_freq filter_length n_jobs
    = inr (data (raw w')) ∧
    Epochs C {| rec_raw := raw w'; rec_projs := seen |} ev None tmin tmax
      None picks pruned true = inr epochs ∧
    reduce C average epochs n_grad n_mag n_eeg = inr ev_projs ∧
    list_at w' p =
      ((if no_proj then [] else existing) ++ avg ++ ev_projs)%list.
Proof.
  intros H i existing avg picks sel pruned.
  apply pipeline_success in H
    as (cd & seen & epochs & ev_projs & rest & Ha & Hcd & Hrcd & Hev & Hsig &
        Hep & Hred & Hlist & _ & _ & ->).
  exists cd, seen, epochs, ev_projs. split_and!; done.
Qed.

(** X8.  With [no_proj=False] the detector and the epoching are handed the
    recording with the average-reference projection already in its
    projection list when [avg_ref] is set, because that list is the one
    the projections are collected in.  With [no_proj=True] they are
    handed the recording with the projections it had: the
    average-reference projection is only in the list handed back. *)
Theorem avg_ref_reaches_epoching_only_without_no_proj
    mode tmin tmax n_grad n_mag n_eeg l_freq h_freq average filter_length
    n_jobs ch_name reject bads avg_ref no_proj event_id w p ev w' :
  _compute_exg_proj C mode tmin tmax n_grad n_mag n_eeg l_freq h_freq average
    filter_length n_jobs ch_name reject bads avg_ref no_proj event_id w
  = (inr (p, ev), w') →
  is_Some (lists w !! info_projs (info (raw w))) →
  let existing := rec_projs (recording w) in
  let avg := if avg_ref then [make_eeg_average_ref_proj C (info (raw w))]
             else [] in
  let seen := if no_proj then existing else (existing ++ avg)%list in
  ∃ new cd r t1 t2 pk rej,
    added w w' new ∧
    head new = Some cd ∧
    call_recording cd = Some {| rec_raw := raw w; rec_projs := seen |} ∧
    call_Epochs r ev t1 t2 pk rej ∈ new ∧
    rec_projs r = seen.
Proof.
  intros H Hwf existing avg seen.
  apply pipeline_success in H
    as (cd & seen' & epochs & ev_projs & rest & Ha & Hcd & Hrcd & _ & _ & _ &
        _ & _ & Hno & Hyes & _).
  assert (seen' = seen) as ->.
  { subst seen. destruct no_proj; [by apply Hyes|by apply Hno]. }
  eexists _, cd, {| rec_raw := raw w'; rec_projs := seen |}, _, _, _, _.
  split_and!; [exact Ha|done|done| |done].
  apply elem_of_cons. right. apply elem_of_app. right. apply elem_of_cons.
  by left.
Qed.

(** ** What a run that raises has done *)

(** X9.  With [no_proj=False] the projections are appended to the recording's
    own list as the run goes; a run on a preloaded recording that raises
    leaves there what it had appended: the average-reference projection
    when [avg_ref] is set, and nothing when it is not. *)
Theorem appended_avg_ref_survives_a_failure
    mode tmin tmax n_grad n_mag n_eeg l_freq h_freq average filter_length
    n_jobs ch_name reject bads avg_ref event_id w e w' :
  _preloaded (raw w) = true →
  _compute_exg_proj C mode tmin tmax n_grad n_mag n_eeg l_freq h_freq average
    filter_length n_jobs ch_name reject bads avg_ref false event_id w
  = (inl e, w') →
  rec_projs (recording w') =
    (rec_projs (recording w) ++
     if avg_ref then [make_eeg_average_ref_proj C (info (raw w))]
     else [])%list.
Proof.
  intros Hpre H. apply pipeline_run in H; [|done].
  destruct H as (det & flt & red & _ & Hinfo & _ & _ & _ & _ & _ & _ & _ &
                 _ & _ & Hlist & _).
  simpl in *. by rewrite Hinfo.
Qed.

(** X10.  A rejection dict that lacks the key of a category the recording has
    no channel of makes the run raise [KeyError] in the pruning block,
    for a category without channels: the detector has been called, no
    filter has, and the signal is as it was.  (The detector is taken not
    to raise.) *)
Theorem missing_reject_key_raises_KeyError
    mode tmin tmax n_grad n_mag n_eeg l_freq h_freq average filter_length
    n_jobs ch_name reject bads avg_ref no_proj event_id w k :
  _preloaded (raw w) = true →
  category_empty C (info (raw w)) k = true →
  dict_at w reject !! k = None →
  (∀ c, detector_exn C c = None) →
  ∃ k' w' det,
    _compute_exg_proj C mode tmin tmax n_grad n_mag n_eeg l_freq h_freq
      average filter_length n_jobs ch_name reject bads avg_ref no_proj
      event_id w
    = (inl (KeyError k'), w') ∧
    category_empty C (info (raw w)) k' = true ∧
    added w w' det ∧
    Forall (λ c, is_detector_call c = true) det ∧
    data (raw w') = data (raw w).
Proof.
  intros Hpre Hk Hnone Hdet.
  destruct (_compute_exg_proj C mode tmin tmax n_grad n_mag n_eeg l_freq
      h_freq average filter_length n_jobs ch_name reject bads avg_ref
      no_proj event_id w) as [r w'] eqn:H.
  apply pipeline_run in H; [|done]. simpl in H.
  destruct H as (det & flt & red & Ha & _ & _ & _ & _ & Hd & _ & _ & _ &
                 Hdata & _ & Hres).
  assert (¬ ∀ k0, k0 ∈ absent_keys C (info (raw w)) →
            is_Some (dict_at w reject !! k0)) as Hno.
  { intros Hall. apply elem_of_absent_keys in Hk.
    specialize (Hall k Hk). rewrite Hnone in Hall. by destruct Hall. }
  destruct r as [e|[p' ev']].
  2:{ destruct Hres as (_ & _ & _ & _ & Hall & _). by destruct Hno. }
  destruct Hres as (_ & [Hstop|[Hstop|Hstop]]).
  - destruct Hstop as (_ & _ & _ & c & _ & Hc). by rewrite Hdet in Hc.
  - destruct Hstop as (-> & -> & k' & Hk' & ->).
    exists k', w', det. rewrite !app_nil_r in Ha.
    split_and!; try done.
    + by apply elem_of_absent_keys.
    + eapply Forall_impl; [exact Hd|]. by intros c [? _].
    + by apply Hdata.
  - destruct Hstop as (_ & Hall). by destruct Hno.
Qed.


(** X11.  The dict is pruned before anything is filtered: once a run on a
    preloaded recording has called a filter, the epoching or a reducer,
    the dict it was given has lost the keys of the categories without
    channels, whether the run then returns or raises. *)
Theorem reject_is_pruned_before_any_filtering
    mode tmin tmax n_grad n_mag n_eeg l_freq h_freq average filter_length
    n_jobs ch_name reject bads avg_ref no_proj event_id w new c :
  _preloaded (raw w) = true →
  let w' := (_compute_exg_proj C mode tmin tmax n_grad n_mag n_eeg l_freq
               h_freq average filter_length n_jobs ch_name reject bads
               avg_ref no_proj event_id w).2 in
  added w w' new → c ∈ new → is_detector_call c = false →
  dict_at w' reject = prune (absent_keys C (info (raw w))) (dict_at w reject) ∧
  ∀ k, dict_at w' reject !! k =
       if category_empty C (info (raw w)) k then None
       else dict_at w reject !! k.
Proof.
  intros Hpre w' Ha Hc Hnd.
  assert (dict_at w' reject =
            prune (absent_keys C (info (raw w))) (dict_at w reject)) as Hpr.
  2:{ split; [done|]. intros k. rewrite Hpr. apply prune_absent_lookup. }
  subst w'.
  destruct (_compute_exg_proj C mode tmin tmax n_grad n_mag n_eeg l_freq
      h_freq average filter_length n_jobs ch_name reject bads avg_ref
      no_proj event_id w) as [r w'] eqn:H.
  apply pipeline_run in H; [|done]. simpl in *.
  destruct H as (det & flt & red & Ha' & _ & _ & _ & _ & Hd & _ & _ & _ &
                 _ & _ & Hres).
  unfold added in Ha, Ha'. rewrite Ha in Ha'.
  apply app_inv_head in Ha'. subst new.
  assert (c ∈ (flt ++ red)%list) as Hin.
  { apply elem_of_app in Hc as [Hc|Hc]; [|done].
    rewrite Forall_forall in Hd. destruct (Hd c Hc) as [? _]. congruence. }
  destruct r as [e|[p ev]].
  - destruct Hres as (_ & [Hstop|[Hstop|Hstop]]).
    + destruct Hstop as (-> & -> & _). by apply elem_of_nil in Hin.
    + destruct Hstop as (-> & -> & _). by apply elem_of_nil in Hin.
    + by destruct Hstop.
  - by destruct Hres as (_ & _ & _ & ? & _).
Qed.

End Discipline.

(** * More runs on the test bench *)


(** Witness of X6.  A default call of the cardiac pipeline on the bench:
    the band-pass filter doubles the samples. *)
Lemma filtered_signal_witness :
  let w := bench_world all_channels in
  let res := _compute_exg_proj bench_collaborators "ECG" f_m0_2 f_0_4 2 2 2
               (Some f_1_0) (Some f_35_0) false 2048 1 None
               ecg_reject_default [] false true 999 w in
  res = (inr (11%positive, [(3, 999); (5, 999); (8, 999)]), res.2) ∧
  apply_selected_filter bench_collaborators (raw w) [0; 1; 2; 3]%nat
    (Some f_1_0) (Some f_35_0) 2048 1 = inr (data (raw res.2)) ∧
  data (raw res.2) = [6; 10; 16].
Proof.
  intros w res.
  assert (res = (inr (11%positive, [(3, 999); (5, 999); (8, 999)]), res.2))
    as Hrun by (vm_compute; reflexivity).
  split_and!; [exact Hrun| |vm_compute; reflexivity].
  exact (proj1 (returned_run_leaves_the_filtered_signal bench_collaborators
           "ECG" f_m0_2 f_0_4 2 2 2 (Some f_1_0) (Some f_35_0) false 2048 1
           None ecg_reject_default [] false true 999 w
           (11%positive, [(3, 999); (5, 999); (8, 999)]) res.2 Hrun)).
Defined.

(** Witness of X7.  The cardiac pipeline on the bench, with
    [average=True]. *)
Lemma returned_values_witness :
  let w := bench_world all_channels in
  let res := _compute_exg_proj bench_collaborators "ECG" f_m0_2 f_0_4 2 2 2
               (Some f_1_0) (Some f_35_0) true 2048 1 None
               ecg_reject_default [] false true 999 w in
  let evs : Events bench := [(3, 999); (5, 999); (8, 999)] in
  let pruned := prune (absent_keys bench_collaborators (info (raw w)))
                  (dict_at w ecg_reject_default) in
  res = (inr (11%positive, evs), res.2) ∧
  ∃ cd seen epochs ev_projs,
    added w res.2
      (cd :: selected_filter [0; 1; 2; 3]%nat (Some f_1_0) (Some f_35_0)
               2048 1 ++
       call_Epochs {| rec_raw := raw res.2; rec_projs := seen |} evs
         f_m0_2 f_0_4 [0; 1; 2; 3]%nat pruned ::
       reduce_calls bench_collaborators true epochs 2 2 2) ∧
    is_detector_call cd = true ∧
    call_recording cd = Some {| rec_raw := raw w; rec_projs := seen |} ∧
    detector_events bench_collaborators cd = Some evs ∧
    apply_selected_filter bench_collaborators (raw w) [0; 1; 2; 3]%nat
      (Some f_1_0) (Some f_35_0) 2048 1 = inr (data (raw res.2)) ∧
    Epochs bench_collaborators
      {| rec_raw := raw res.2; rec_projs := seen |} evs None f_m0_2 f_0_4
      None [0; 1; 2; 3]%nat pruned true = inr epochs ∧
    reduce bench_collaborators true epochs 2 2 2 = inr ev_projs ∧
    list_at res.2 11%positive = ([] ++ [] ++ ev_projs)%list.
Proof.
  intros w res evs pruned.
  assert (res = (inr (11%positive, evs), res.2))
    as Hrun by (vm_compute; reflexivity).
  split; [exact Hrun|].
  exact (returned_values_come_from_the_collaborators bench_collaborators
           "ECG" f_m0_2 f_0_4 2 2 2 (Some f_1_0) (Some f_35_0) true 2048 1
           None ecg_reject_default [] false true 999 w 11%positive
           evs res.2 Hrun).
Defined.

(** What that call hands back with [average=True]. *)
Example evoked_reducer_on_the_bench :
  let res := _compute_exg_proj bench_collaborators "ECG" f_m0_2 f_0_4 2 2 2
               (Some f_1_0) (Some f_35_0) true 2048 1 None
               ecg_reject_default [] false true 999
               (bench_world all_channels) in
  list_at res.2 11%positive = ["ssp-evoked-1"; "ssp-evoked-2"].
Proof. vm_compute. reflexivity. Qed.

(** Witness of X8.  [avg_ref=True] with [no_proj=False]: the epoching
    call sees the average-reference projection among the recording's
    projections. *)
Lemma avg_ref_seen_witness :
  let w := bench_world all_channels in
  let res := _compute_exg_proj bench_collaborators "ECG" f_m0_2 f_0_4 2 2 2
               (Some f_1_0) (Some f_35_0) false 2048 1 None
               ecg_reject_default [] true false 999 w in
  res = (inr (10%positive, [(3, 999); (5, 999); (8, 999)]), res.2) ∧
  is_Some (lists w !! info_projs (info (raw w))) ∧
  ∃ new cd (r : Recording bench) t1 t2 pk rej,
    added w res.2 new ∧
    head new = Some cd ∧
    call_recording cd =
      Some (@Build_Recording bench (raw w)
              ["old-1"; "old-2"; "average-eeg-ref"]) ∧
    @call_Epochs bench r [(3, 999); (5, 999); (8, 999)] t1 t2 pk rej ∈ new ∧
    rec_projs r = ["old-1"; "old-2"; "average-eeg-ref"].
Proof.
  intros w res.
  assert (res = (inr (10%positive, [(3, 999); (5, 999); (8, 999)]), res.2))
    as Hrun by (vm_compute; reflexivity).
  assert (is_Some (lists w !! info_projs (info (raw w)))) as Hwf
    by (eexists; vm_compute; reflexivity).
  split_and!; [exact Hrun|exact Hwf|].
  exact (avg_ref_reaches_epoching_only_without_no_proj bench_collaborators
           "ECG" f_m0_2 f_0_4 2 2 2 (Some f_1_0) (Some f_35_0) false 2048 1
           None ecg_reject_default [] true false 999 w 10%positive
           [(3, 999); (5, 999); (8, 999)] res.2 Hrun Hwf).
Defined.

(** Witness of X9.  [l_freq=1.0] and [h_freq=None]: the bench low-pass
    filter refuses the [None] cutoff it is handed, and the run raises
    after the average-reference projection has gone into the recording's
    list. *)
Lemma failure_after_avg_ref_witness :
  let w := bench_world all_channels in
  let res := _compute_exg_proj bench_collaborators "ECG" f_m0_2 f_0_4 2 2 2
               (Some f_1_0) None false 2048 1 None
               ecg_reject_default [] true false 999 w in
  _preloaded (raw w) = true ∧
  res = (inl (OtherError "TypeError" "cutoff is None"), res.2) ∧
  rec_projs (recording res.2) = ["old-1"; "old-2"; "average-eeg-ref"].
Proof.
  intros w res.
  assert (res = (inl (OtherError "TypeError" "cutoff is None"), res.2))
    as Hrun by (vm_compute; reflexivity).
  split_and!; [reflexivity|exact Hrun|].
  exact (appended_avg_ref_survives_a_failure bench_collaborators
           "ECG" f_m0_2 f_0_4 2 2 2 (Some f_1_0) None false 2048 1
           None ecg_reject_default [] true 999 w
           (OtherError "TypeError" "cutoff is None") res.2 eq_refl Hrun).
Defined.

(** Witness of X10.  A recording without gradiometers and a dict written
    without ['grad']. *)
Lemma missing_reject_key_witness :
  let w := bench_world_caller_dict in
  _preloaded (raw w) = true ∧
  category_empty bench_collaborators (info (raw w)) "grad" = true ∧
  dict_at w caller_reject !! "grad" = None ∧
  ∃ k' w' det,
    _compute_exg_proj bench_collaborators "ECG" f_m0_2 f_0_4 2 2 2
      (Some f_1_0) (Some f_35_0) false 2048 1 None caller_reject []
      false true 999 w
    = (inl (KeyError k'), w') ∧
    category_empty bench_collaborators (info (raw w)) k' = true ∧
    added w w' det ∧
    Forall (λ c, is_detector_call c = true) det ∧
    data (raw w') = data (raw w).
Proof.
  intros w.
  assert (∀ c, detector_exn bench_collaborators c = None) as Hdet
    by (intros []; reflexivity).
  assert (dict_at w caller_reject !! "grad" = None) as Hnone
    by (vm_compute; reflexivity).
  split_and!; [reflexivity|reflexivity|exact Hnone|].
  exact (missing_reject_key_raises_KeyError bench_collaborators
           "ECG" f_m0_2 f_0_4 2 2 2 (Some f_1_0) (Some f_35_0) false 2048 1
           None caller_reject [] false true 999 w "grad"
           eq_refl eq_refl Hnone Hdet).
Defined.

(** The key that run names. *)
Example missing_grad_key_on_the_bench :
  (_compute_exg_proj bench_collaborators "ECG" f_m0_2 f_0_4 2 2 2
     (Some f_1_0) (Some f_35_0) false 2048 1 None caller_reject []
     false true 999 bench_world_caller_dict).1
  = inl (KeyError "grad").
Proof. vm_compute. reflexivity. Qed.

(** Witness of X11.  A recording without gradiometers, [l_freq=1.0] and
    [h_freq=None]: the low-pass call raises, and the default dict has
    lost ['grad']. *)
Lemma pruned_before_filtering_witness :
  let w := bench_world no_grad_channels in
  let res := _compute_exg_proj bench_collaborators "ECG" f_m0_2 f_0_4 2 2 2
               (Some f_1_0) None false 2048 1 None
               ecg_reject_default [] false true 999 w in
  let c := call_low_pass_filter [0; 1; 2]%nat None 2048 1 in
  _preloaded (raw w) = true ∧
  added w res.2 (trace res.2) ∧
  c ∈ trace res.2 ∧
  res.1 = inl (OtherError "TypeError" "cutoff is None") ∧
  dict_at w ecg_reject_default !! "grad" = Some f_2000e_13 ∧
  dict_at res.2 ecg_reject_default !! "grad" = None.
Proof.
  intros w res c.
  assert (added w res.2 (trace res.2)) as Ha by reflexivity.
  assert (c ∈ trace res.2) as Hc.
  { apply (list_elem_of_lookup_2 _ 1%nat). vm_compute. reflexivity. }
  split_and!; [reflexivity|exact Ha|exact Hc|vm_compute; reflexivity
              |vm_compute; reflexivity|].
  destruct (reject_is_pruned_before_any_filtering bench_collaborators
              "ECG" f_m0_2 f_0_4 2 2 2 (Some f_1_0) None false 2048 1
              None ecg_reject_default [] false true 999 w (trace res.2) c
              eq_refl Ha Hc eq_refl) as [_ Hlook].
  etrans; [exact (Hlook "grad")|]. vm_compute. reflexivity.
Defined.
